(** * chatbot-maker: the chat front end and the retrieval core

    A shallow embedding of [chatbot-frontend/src/lib/api.ts], of the two
    revisions of [chatbot-frontend/src/app/page.tsx] and of
    [chatbot-frontend/src/types/api.ts], followed by a model of the
    retrieval core (ingestion, store, MMR) that the README describes. *)

From Stdlib Require Import ZArith QArith Lia Lqa String Ascii DecimalString DecimalPos.
From stdpp Require Import base list strings gmap.

Set Warnings "-register-all,-clear-no-such-hyp".

Local Open Scope Z_scope.

(** ** JavaScript strings

    A JavaScript string is a sequence of UTF-16 code units.  Literals of the
    source that are plain ASCII are written with [lit]; the few characters
    outside ASCII are given by their code unit. *)

Definition code_unit := N.
Definition jsstring := list code_unit.

Definition lit (s : string) : jsstring :=
  map (fun c => N_of_ascii c) (list_ascii_of_string s).

(** U+274C, U+2705, U+2026 and the double quote U+0022. *)
Definition cross_mark : jsstring := [10060%N].
Definition check_mark : jsstring := [9989%N].
Definition ellipsis : jsstring := [8230%N].
Definition dquote : jsstring := [34%N].

(** ECMAScript WhiteSpace and LineTerminator code points: what
    [String.prototype.trim] strips and what [parseInt] skips. *)
Definition is_white_space (c : code_unit) : bool :=
  (  (c =? 9) || (c =? 10) || (c =? 11) || (c =? 12) || (c =? 13)
  || (c =? 32) || (c =? 160) || (c =? 5760)
  || ((8192 <=? c) && (c <=? 8202))
  || (c =? 8232) || (c =? 8233) || (c =? 8239) || (c =? 8287)
  || (c =? 12288) || (c =? 65279))%N.

Fixpoint trimStart (s : jsstring) : jsstring :=
  match s with
  | [] => []
  | c :: s' => if is_white_space c then trimStart s' else s
  end.

Definition trimEnd (s : jsstring) : jsstring := rev (trimStart (rev s)).

(** [s.trim()] *)
Definition trim (s : jsstring) : jsstring := trimEnd (trimStart s).

(** Truthiness of a string: only the empty string is falsy. *)
Definition truthy (s : jsstring) : bool :=
  match s with [] => false | _ :: _ => true end.

(** [a || b] on strings. *)
Definition or_else (a b : jsstring) : jsstring := if truthy a then a else b.

(** [s.startsWith(sub)] and [s.includes(sub)] on code units. *)
Fixpoint startsWith (s sub : jsstring) : bool :=
  match sub, s with
  | [], _ => true
  | a :: sub', b :: s' => (a =? b)%N && startsWith s' sub'
  | _ :: _, [] => false
  end.

Fixpoint includes (s sub : jsstring) : bool :=
  startsWith s sub
  || match s with
     | [] => false
     | _ :: s' => includes s' sub
     end.

(** ** JavaScript numbers

    The numbers of this program are the results of [parseInt], the literal
    [3], and the integer fields of the API: an integer or [NaN].  An integer
    is kept exact (the source rounds to the nearest double above 2^53, and
    [-0] is identified with [0], as [JSON.stringify] does). *)

Inductive number : Type :=
| NaN
| Int (z : Z).

Definition is_digit (c : code_unit) : bool := ((48 <=? c) && (c <=? 57))%N.

Definition digit_value (c : code_unit) : Z := Z.of_N (c - 48).

(** The longest prefix of decimal digits, read left to right;
    [None] when there is no digit. *)
Fixpoint digits_prefix (acc : option Z) (s : jsstring) : option Z :=
  match s with
  | [] => acc
  | c :: s' =>
      if is_digit c
      then digits_prefix (Some (10 * default 0 acc + digit_value c)) s'
      else acc
  end.

(** [parseInt(s, 10)]: skip leading white space, read an optional sign, then
    the longest run of decimal digits; [NaN] when that run is empty. *)
Definition parseInt10 (s : jsstring) : number :=
  let s1 := trimStart s in
  let '(sign, s2) :=
    match s1 with
    | c :: r => if (c =? 45)%N then (-1, r)
                else if (c =? 43)%N then (1, r) else (1, s1)
    | [] => (1, s1)
    end in
  match digits_prefix None s2 with
  | None => NaN
  | Some n => Int (sign * n)
  end.

(** [String(n)] for the numbers above. *)
Definition String_number (n : number) : jsstring :=
  match n with
  | NaN => lit "NaN"
  | Int z => lit (NilZero.string_of_int (Z.to_int z))
  end.

(** [String(b)] for a boolean. *)
Definition String_boolean (b : bool) : jsstring :=
  if b then lit "true" else lit "false".

(** ** JSON documents, files and HTTP messages *)

Inductive json : Type :=
| JNull
| JBool (b : bool)
| JNumber (q : Q)
| JString (s : jsstring)
| JArray (items : list json)
| JObject (fields : list (jsstring * json)).

(** How [JSON.stringify] writes a number: [NaN] becomes [null]. *)
Definition json_of_number (n : number) : json :=
  match n with
  | NaN => JNull
  | Int z => JNumber (inject_Z z)
  end.

(** The names of the fields of a JSON object, in order. *)
Definition field_names (j : json) : list jsstring :=
  match j with
  | JObject fields => map fst fields
  | _ => []
  end.

Record File : Type := { file_name : jsstring; file_bytes : list N }.

Inductive FormEntry : Type :=
| FormText (s : jsstring)
| FormBlob (f : File).

(** [FormData]: an ordered list of named entries; [append] adds at the end. *)
Definition FormData := list (jsstring * FormEntry).

Definition FormData_append (form : FormData) (name : jsstring) (v : FormEntry)
  : FormData := form ++ [(name, v)].

Inductive Method : Type := GET | POST.

(** The body of a request: the text of a JSON document (kept as the document
    [JSON.stringify] serialises) or a multipart form. *)
Inductive Body : Type :=
| JsonText (doc : json)
| Multipart (form : FormData).

Record Request : Type := {
  url : jsstring;
  method : Method;
  headers : list (jsstring * jsstring);
  body : Body
}.

(** A thrown value.  Every throw site of this program ([new Error], a
    rejected [fetch], a rejected [res.json()]) throws an [Error] object. *)
Record JsError : Type := new_Error { message : jsstring }.

(** [err instanceof Error] *)
Definition instanceof_Error (err : JsError) : bool := true.

(** How an evaluation completes: normally, or by throwing. *)
Inductive completion (A : Type) : Type :=
| Normal (a : A)
| Throw (e : JsError).
Arguments Normal {A} a.
Arguments Throw {A} e.

(** A response as the helpers read it: the [ok] flag, the body as
    [res.text()] gives it and as [res.json()] parses it (which throws on a
    body that is not JSON).  [T] is the declared type of the parsed body. *)
Record Response (T : Type) : Type := {
  ok : bool;
  text : jsstring;
  json_body : completion T
}.
Arguments ok {T} r.
Arguments text {T} r.
Arguments json_body {T} r.

(** ** types/api.ts *)

Module Citation.
Record t : Type := { data_type : jsstring; title : jsstring }.
End Citation.

Module ChatHit.
(** [score] is a similarity; it is carried, never computed with. *)
Record t : Type := {
  score : Q;
  data_type : jsstring;
  title : jsstring;
  keywords : jsstring
}.
End ChatHit.

Module ChatResponse.
Record t : Type := {
  company : jsstring;
  query : jsstring;
  top_k : number;
  answer : jsstring;
  citations : list Citation.t;
  hits : list ChatHit.t
}.
End ChatResponse.

(** The body of a successful ingest response, as README.md documents it:
    [{ "ok": true, "company": "myco", "records": 123 }]. *)
Module IngestResponse.
Record t : Type := {
  ok : bool;
  company : jsstring;
  records : number
}.
End IngestResponse.

(** ** The environment and the task monad

    The environment is what the code reads but does not own: the build-time
    variable [NEXT_PUBLIC_API_BASE], what the two routes of the back end
    answer to a request, and the values [crypto.randomUUID()] returns. *)

Record Env : Type := {
  NEXT_PUBLIC_API_BASE : option jsstring;
  ingest_route : Request -> completion (Response IngestResponse.t);
  chat_route : Request -> completion (Response ChatResponse.t);
  uuid : nat -> jsstring
}.

(** What a task can change: the component state [ui], the requests sent so
    far (oldest first) and the number of UUIDs drawn. *)
Record Heap (St : Type) : Type := {
  ui : St;
  sent : list Request;
  drawn : nat
}.
Arguments ui {St} h.
Arguments sent {St} h.
Arguments drawn {St} h.

Definition Task (St A : Type) : Type := Heap St -> completion A * Heap St.

Definition throw {St A} (e : JsError) : Task St A := fun h => (Throw e, h).

(** Sequencing stops at the first throw.  With these two instances the
    handlers below are written with stdpp's [x ← m; k] and [m;; k]. *)
#[global] Instance Task_ret {St} : MRet (Task St) :=
  fun A a h => (Normal a, h).

#[global] Instance Task_bind {St} : MBind (Task St) :=
  fun A B k m h =>
    match m h with
    | (Normal a, h') => k a h'
    | (Throw e, h') => (Throw e, h')
    end.

(** [try { body } catch (err) { handler err }] *)
Definition try_catch {St A} (body : Task St A) (handler : JsError -> Task St A)
  : Task St A :=
  fun h =>
    match body h with
    | (Normal a, h') => (Normal a, h')
    | (Throw e, h') => handler e h'
    end.

(** [try { body } finally { fin }]: [fin] runs either way; the completion
    is that of [body] unless [fin] throws. *)
Definition try_finally {St A} (body : Task St A) (fin : Task St unit) : Task St A :=
  fun h =>
    match body h with
    | (c, h') =>
        match fin h' with
        | (Normal _, h'') => (c, h'')
        | (Throw e, h'') => (Throw e, h'')
        end
    end.

(** A state update [setX(f)] of the component. *)
Definition modify {St} (f : St -> St) : Task St unit :=
  fun h => (Normal tt, {| ui := f (ui h); sent := sent h; drawn := drawn h |}).

(** [crypto.randomUUID()] *)
Definition randomUUID {St} (env : Env) : Task St jsstring :=
  fun h => (Normal (uuid env (drawn h)),
            {| ui := ui h; sent := sent h; drawn := S (drawn h) |}).

(** [await fetch(...)]: the request goes out, and the route answers or the
    promise rejects. *)
Definition fetch {St T} (route : Request -> completion (Response T))
    (req : Request) : Task St (Response T) :=
  fun h => (route req,
            {| ui := ui h; sent := sent h ++ [req]; drawn := drawn h |}).

(** [await res.json()] *)
Definition res_json {St T} (res : Response T) : Task St T :=
  fun h => (json_body res, h).

(** An event handler is created by the render it belongs to and closes over
    the state of that render: dispatching an event runs the handler of the
    latest render, on the current state. *)
Definition dispatch {St} (handler : St -> Task St unit) : Task St unit :=
  fun h => handler (ui h) h.

(** ** lib/api.ts *)

Definition API_BASE (env : Env) : jsstring :=
  match NEXT_PUBLIC_API_BASE env with
  | Some base => or_else base (lit "http://127.0.0.1:8000")
  | None => lit "http://127.0.0.1:8000"
  end.

Definition ingestCSV {St} (env : Env) (company : jsstring) (file : File)
    (reset : bool) : Task St IngestResponse.t :=
  let form := [] in
  let form := FormData_append form (lit "company") (FormText company) in
  let form := FormData_append form (lit "reset") (FormText (String_boolean reset)) in
  let form := FormData_append form (lit "file") (FormBlob file) in
  res ← fetch (ingest_route env)
          {| url := API_BASE env ++ lit "/v1/ingest";
             method := POST; headers := []; body := Multipart form |};
  if negb (ok res) then throw (new_Error (text res))
  else res_json res.

(** [top_k = 3]: the default applies when the argument is left out. *)
Definition chat {St} (env : Env) (company query : jsstring)
    (top_k : option number) : Task St ChatResponse.t :=
  let top_k := default (Int 3) top_k in
  res ← fetch (chat_route env)
          {| url := API_BASE env ++ lit "/v1/chat";
             method := POST;
             headers := [(lit "Content-Type", lit "application/json")];
             body := JsonText (JObject [(lit "company", JString company);
                                        (lit "query", JString query);
                                        (lit "top_k", json_of_number top_k)]) |};
  if negb (ok res) then throw (new_Error (text res))
  else res_json res.

(** [chat] once more, as the JavaScript it compiles to.  The helper declares
    no return type and hands on what [res.json()] parsed without looking at
    it, so the type [T] of the parsed body is a parameter here, and so is
    what the back end answers; [chat] above is the instance the call sites
    declare with [const res: ChatResponse]. *)
Definition chat_untyped {St T} (env : Env)
    (route : Request -> completion (Response T)) (company query : jsstring)
    (top_k : option number) : Task St T :=
  let top_k := default (Int 3) top_k in
  res ← fetch route
          {| url := API_BASE env ++ lit "/v1/chat";
             method := POST;
             headers := [(lit "Content-Type", lit "application/json")];
             body := JsonText (JObject [(lit "company", JString company);
                                        (lit "query", JString query);
                                        (lit "top_k", json_of_number top_k)]) |};
  if negb (ok res) then throw (new_Error (text res))
  else res_json res.

(** ** app/page.tsx

    The file holds two revisions of the page, one after the other.  Both
    declare the same [Message] type; each has its own component [Home]. *)

Inductive Role : Type := user | assistant.

Module Message.
Record t : Type := {
  id : jsstring;
  role : Role;
  content : jsstring;
  citations : option (list Citation.t);
  hits : option (list ChatHit.t)
}.
End Message.

(** The [min] and [max] attributes of the top-k number input, the same in
    both revisions. *)
Definition topK_input_min : Z := 1.
Definition topK_input_max : Z := 20.

(** *** First revision (lines 1 to 246) *)

Module Page1.

(** The [useState] cells of [Home]. *)
Record State : Type := {
  company : jsstring;
  file : option File;
  reset : bool;
  ingestStatus : option jsstring;
  query : jsstring;
  topK : number;
  loading : bool;
  messages : list Message.t
}.

(** The initial values passed to [useState]. *)
Definition initial : State := {|
  company := lit "instagram";
  file := None;
  reset := true;
  ingestStatus := None;
  query := [];
  topK := Int 3;
  loading := false;
  messages := []
|}.

Definition setCompany (v : jsstring) : Task State unit :=
  modify (fun s => {| company := v; file := file s; reset := reset s;
    ingestStatus := ingestStatus s; query := query s; topK := topK s;
    loading := loading s; messages := messages s |}).

Definition setFile (v : option File) : Task State unit :=
  modify (fun s => {| company := company s; file := v; reset := reset s;
    ingestStatus := ingestStatus s; query := query s; topK := topK s;
    loading := loading s; messages := messages s |}).

Definition setReset (v : bool) : Task State unit :=
  modify (fun s => {| company := company s; file := file s; reset := v;
    ingestStatus := ingestStatus s; query := query s; topK := topK s;
    loading := loading s; messages := messages s |}).

Definition setIngestStatus (v : option jsstring) : Task State unit :=
  modify (fun s => {| company := company s; file := file s; reset := reset s;
    ingestStatus := v; query := query s; topK := topK s;
    loading := loading s; messages := messages s |}).

Definition setQuery (v : jsstring) : Task State unit :=
  modify (fun s => {| company := company s; file := file s; reset := reset s;
    ingestStatus := ingestStatus s; query := v; topK := topK s;
    loading := loading s; messages := messages s |}).

Definition setTopK (v : number) : Task State unit :=
  modify (fun s => {| company := company s; file := file s; reset := reset s;
    ingestStatus := ingestStatus s; query := query s; topK := v;
    loading := loading s; messages := messages s |}).

Definition setLoading (v : bool) : Task State unit :=
  modify (fun s => {| company := company s; file := file s; reset := reset s;
    ingestStatus := ingestStatus s; query := query s; topK := topK s;
    loading := v; messages := messages s |}).

(** The functional form [setMessages((m) => ...)]. *)
Definition setMessages (f : list Message.t -> list Message.t) : Task State unit :=
  modify (fun s => {| company := company s; file := file s; reset := reset s;
    ingestStatus := ingestStatus s; query := query s; topK := topK s;
    loading := loading s; messages := f (messages s) |}).

(** [onChange] of the top-k input:
    [setTopK(parseInt(e.target.value || "3", 10))]. *)
Definition onChange_topK (value : jsstring) : Task State unit :=
  setTopK (parseInt10 (or_else value (lit "3"))).

(** [handleUpload]; [props] are the values of the render the handler closes
    over.  [e.preventDefault()] touches nothing that is modelled. *)
Definition handleUpload (env : Env) (props : State) : Task State unit :=
  match file props with
  | None => setIngestStatus (Some (lit "Please choose a CSV file first."))
  | Some f =>
      setIngestStatus (Some (lit "Uploading & indexing" ++ ellipsis));;
      try_catch
        (res ← ingestCSV env (trim (company props)) f (reset props);
         setIngestStatus (Some (
           check_mark ++ lit " Ingested "
           ++ String_number (IngestResponse.records res)
           ++ lit " rows for " ++ dquote ++ IngestResponse.company res
           ++ dquote ++ lit ".")))
        (fun err =>
           setIngestStatus (Some (
             cross_mark ++ lit " " ++ or_else (message err) (lit "Upload failed"))))
  end.

(** [res.citations?.map((c) => `${c.data_type} · ${c.title}`).join(" | ") || ""];
    U+00B7 is the middle dot.  The handler computes it and never uses it. *)
Fixpoint join (sep : jsstring) (parts : list jsstring) : jsstring :=
  match parts with
  | [] => []
  | [p] => p
  | p :: rest => p ++ sep ++ join sep rest
  end.

Definition citationsText (res : ChatResponse.t) : jsstring :=
  or_else
    (join (lit " | ")
       (map (fun c => Citation.data_type c ++ lit " " ++ [183%N] ++ lit " "
                      ++ Citation.title c)
            (ChatResponse.citations res)))
    [].

(** [handleSend] *)
Definition handleSend (env : Env) (props : State) : Task State unit :=
  let q := trim (query props) in
  if negb (truthy q) then mret tt
  else
    id_user ← randomUUID env;
    let userMsg := {| Message.id := id_user; Message.role := user;
                      Message.content := q; Message.citations := None;
                      Message.hits := None |} in
    setMessages (fun m => m ++ [userMsg]);;
    setQuery [];;
    setLoading true;;
    try_finally
      (try_catch
         (res ← chat env (trim (company props)) q (Some (topK props));
          let _citationsText := citationsText res in
          let content := or_else (ChatResponse.answer res) (lit "(no answer)") in
          id_asst ← randomUUID env;
          let asstMsg := {| Message.id := id_asst; Message.role := assistant;
                            Message.content := content;
                            Message.citations := Some (ChatResponse.citations res);
                            Message.hits := Some (ChatResponse.hits res) |} in
          setMessages (fun m => m ++ [asstMsg]))
         (fun err =>
            id_asst ← randomUUID env;
            let asstMsg := {| Message.id := id_asst; Message.role := assistant;
                              Message.content :=
                                cross_mark ++ lit " Error: "
                                ++ or_else (message err) (lit "request failed");
                              Message.citations := None;
                              Message.hits := None |} in
            setMessages (fun m => m ++ [asstMsg])))
      (setLoading false).


(** [apiBase], the address the page displays. *)
Definition apiBase (env : Env) : jsstring :=
  match NEXT_PUBLIC_API_BASE env with
  | Some base => or_else base (lit "http://127.0.0.1:8000")
  | None => lit "http://127.0.0.1:8000"
  end.

(** [disabledChat = loading || !company.trim()] *)
Definition disabledChat (s : State) : bool :=
  loading s || negb (truthy (trim (company s))).

(** [onChange] of the query input: [setQuery(e.target.value)]. *)
Definition onChange_query (value : jsstring) : Task State unit :=
  setQuery value.

(** The Send button: [onClick={handleSend} disabled={disabledChat}].  A
    disabled button dispatches no click. *)
Definition onClick_send (env : Env) (props : State) : Task State unit :=
  if disabledChat props then mret tt else handleSend env props.

(** The query input: [disabled={disabledChat}] and [onKeyDown] with
    [e.key === "Enter" && !e.shiftKey ? (e.preventDefault(), handleSend())
    : undefined].  A disabled input receives no key. *)
Definition onKeyDown_query (env : Env) (props : State) (key : jsstring)
    (shiftKey : bool) : Task State unit :=
  if disabledChat props then mret tt
  else if bool_decide (key = lit "Enter") && negb shiftKey
       then handleSend env props
       else mret tt.

(** [MessageBubble]: the text of one citation span,
    [({c.data_type} · {c.title}){i < msg.citations!.length - 1 ? " | " : ""}],
    for the citation at index [i] of [n]. *)
Definition citation_span (n : nat) (i : nat) (c : Citation.t) : jsstring :=
  lit "(" ++ Citation.data_type c ++ lit " " ++ [183%N] ++ lit " "
  ++ Citation.title c ++ lit ")"
  ++ (if (Z.of_nat i <? Z.of_nat n - 1) then lit " | " else []).

(** [MessageBubble]: the text of the spans of the citations line, shown when
    [msg.citations && msg.citations.length > 0]; [None] when the line is
    not rendered. *)
Definition citations_line (msg : Message.t) : option jsstring :=
  match Message.citations msg with
  | Some cs =>
      if (0 <? length cs)%nat
      then Some (concat (imap (citation_span (length cs)) cs))
      else None
  | None => None
  end.

End Page1.

(** *** Second revision (lines 247 to 915) *)

Module Page2.

Record State : Type := {
  company : jsstring;
  file : option File;
  reset : bool;
  ingestStatus : option jsstring;
  query : jsstring;
  topK : number;
  loading : bool;
  messages : list Message.t;
  sidebarOpen : bool
}.

Definition initial : State := {|
  company := lit "instagram";
  file := None;
  reset := true;
  ingestStatus := None;
  query := [];
  topK := Int 3;
  loading := false;
  messages := [];
  sidebarOpen := false
|}.

Definition setCompany (v : jsstring) : Task State unit :=
  modify (fun s => {| company := v; file := file s; reset := reset s;
    ingestStatus := ingestStatus s; query := query s; topK := topK s;
    loading := loading s; messages := messages s;
    sidebarOpen := sidebarOpen s |}).

Definition setFile (v : option File) : Task State unit :=
  modify (fun s => {| company := company s; file := v; reset := reset s;
    ingestStatus := ingestStatus s; query := query s; topK := topK s;
    loading := loading s; messages := messages s;
    sidebarOpen := sidebarOpen s |}).

Definition setReset (v : bool) : Task State unit :=
  modify (fun s => {| company := company s; file := file s; reset := v;
    ingestStatus := ingestStatus s; query := query s; topK := topK s;
    loading := loading s; messages := messages s;
    sidebarOpen := sidebarOpen s |}).

Definition setIngestStatus (v : option jsstring) : Task State unit :=
  modify (fun s => {| company := company s; file := file s; reset := reset s;
    ingestStatus := v; query := query s; topK := topK s;
    loading := loading s; messages := messages s;
    sidebarOpen := sidebarOpen s |}).

Definition setQuery (v : jsstring) : Task State unit :=
  modify (fun s => {| company := company s; file := file s; reset := reset s;
    ingestStatus := ingestStatus s; query := v; topK := topK s;
    loading := loading s; messages := messages s;
    sidebarOpen := sidebarOpen s |}).

Definition setTopK (v : number) : Task State unit :=
  modify (fun s => {| company := company s; file := file s; reset := reset s;
    ingestStatus := ingestStatus s; query := query s; topK := v;
    loading := loading s; messages := messages s;
    sidebarOpen := sidebarOpen s |}).

Definition setLoading (v : bool) : Task State unit :=
  modify (fun s => {| company := company s; file := file s; reset := reset s;
    ingestStatus := ingestStatus s; query := query s; topK := topK s;
    loading := v; messages := messages s;
    sidebarOpen := sidebarOpen s |}).

Definition setMessages (f : list Message.t -> list Message.t) : Task State unit :=
  modify (fun s => {| company := company s; file := file s; reset := reset s;
    ingestStatus := ingestStatus s; query := query s; topK := topK s;
    loading := loading s; messages := f (messages s);
    sidebarOpen := sidebarOpen s |}).

Definition setSidebarOpen (v : bool) : Task State unit :=
  modify (fun s => {| company := company s; file := file s; reset := reset s;
    ingestStatus := ingestStatus s; query := query s; topK := topK s;
    loading := loading s; messages := messages s;
    sidebarOpen := v |}).

Definition onChange_topK (value : jsstring) : Task State unit :=
  setTopK (parseInt10 (or_else value (lit "3"))).

(** [handleUpload]: the catch clause reads
    [err instanceof Error ? err.message : "Upload failed"]. *)
Definition handleUpload (env : Env) (props : State) : Task State unit :=
  match file props with
  | None => setIngestStatus (Some (lit "Please choose a CSV file first."))
  | Some f =>
      setIngestStatus (Some (lit "Uploading & indexing" ++ ellipsis));;
      try_catch
        (res ← ingestCSV env (trim (company props)) f (reset props);
         setIngestStatus (Some (
           check_mark ++ lit " Ingested "
           ++ String_number (IngestResponse.records res)
           ++ lit " rows for " ++ dquote ++ IngestResponse.company res
           ++ dquote ++ lit ".")))
        (fun err =>
           let errorMessage :=
             if instanceof_Error err then message err else lit "Upload failed" in
           setIngestStatus (Some (cross_mark ++ lit " " ++ errorMessage)))
  end.

(** [handleSend]: the catch clause reads
    [err instanceof Error ? err.message : "request failed"]. *)
Definition handleSend (env : Env) (props : State) : Task State unit :=
  let q := trim (query props) in
  if negb (truthy q) then mret tt
  else
    id_user ← randomUUID env;
    let userMsg := {| Message.id := id_user; Message.role := user;
                      Message.content := q; Message.citations := None;
                      Message.hits := None |} in
    setMessages (fun m => m ++ [userMsg]);;
    setQuery [];;
    setLoading true;;
    try_finally
      (try_catch
         (res ← chat env (trim (company props)) q (Some (topK props));
          let content := or_else (ChatResponse.answer res) (lit "(no answer)") in
          id_asst ← randomUUID env;
          let asstMsg := {| Message.id := id_asst; Message.role := assistant;
                            Message.content := content;
                            Message.citations := Some (ChatResponse.citations res);
                            Message.hits := Some (ChatResponse.hits res) |} in
          setMessages (fun m => m ++ [asstMsg]))
         (fun err =>
            let errorMessage :=
              if instanceof_Error err then message err else lit "request failed" in
            id_asst ← randomUUID env;
            let asstMsg := {| Message.id := id_asst; Message.role := assistant;
                              Message.content :=
                                cross_mark ++ lit " Error: " ++ errorMessage;
                              Message.citations := None;
                              Message.hits := None |} in
            setMessages (fun m => m ++ [asstMsg])))
      (setLoading false).


(** [apiBase], the address the page displays. *)
Definition apiBase (env : Env) : jsstring :=
  match NEXT_PUBLIC_API_BASE env with
  | Some base => or_else base (lit "http://127.0.0.1:8000")
  | None => lit "http://127.0.0.1:8000"
  end.

(** [disabledChat = loading || !company.trim()] *)
Definition disabledChat (s : State) : bool :=
  loading s || negb (truthy (trim (company s))).

(** [onChange] of the query input: [setQuery(e.target.value)]. *)
Definition onChange_query (value : jsstring) : Task State unit :=
  setQuery value.

(** The Send button: [onClick={handleSend} disabled={disabledChat}].  A
    disabled button dispatches no click. *)
Definition onClick_send (env : Env) (props : State) : Task State unit :=
  if disabledChat props then mret tt else handleSend env props.

(** The query input: [disabled={disabledChat}] and [onKeyDown] with
    [e.key === "Enter" && !e.shiftKey ? (e.preventDefault(), handleSend())
    : undefined].  A disabled input receives no key. *)
Definition onKeyDown_query (env : Env) (props : State) (key : jsstring)
    (shiftKey : bool) : Task State unit :=
  if disabledChat props then mret tt
  else if bool_decide (key = lit "Enter") && negb shiftKey
       then handleSend env props
       else mret tt.

(** The value of [msg.citations?.length]: [None] is [undefined]. *)
Definition optional_length {A} (l : option (list A)) : option nat :=
  length <$> l.

(** Truthiness of such a value: a number other than 0. *)
Definition truthy_length (v : option nat) : bool :=
  match v with
  | Some (S _) => true
  | _ => false
  end.

(** [a || b] on such values. *)
Definition or_length (a b : option nat) : option nat :=
  if truthy_length a then a else b.

(** What React puts in the page for a child expression: nothing for
    [undefined] and [false], the digits for a number, or the element. *)
Inductive Rendered : Type :=
| rendered_nothing
| rendered_text (s : jsstring)
| rendered_actions (sources results : option nat).

(** The count a button of the action row shows, when the button is there:
    [msg.citations && msg.citations.length > 0 && (... ({msg.citations.length}))]. *)
Definition button_count {A} (l : option (list A)) : option nat :=
  match l with
  | Some xs => if (0 <? length xs)%nat then Some (length xs) else None
  | None => None
  end.

(** [MessageBubble]: the action row,
    [{(msg.citations?.length || msg.hits?.length) && (<div> ... </div>)}]:
    when the left operand is falsy, [&&] yields that operand itself. *)
Definition action_area (msg : Message.t) : Rendered :=
  let v := or_length (optional_length (Message.citations msg))
                     (optional_length (Message.hits msg)) in
  if truthy_length v
  then rendered_actions (button_count (Message.citations msg))
                        (button_count (Message.hits msg))
  else match v with
       | Some n => rendered_text (String_number (Int (Z.of_nat n)))
       | None => rendered_nothing
       end.

(** The colours of the status banner. *)
Inductive StatusStyle : Type := green | red | blue.

(** The status banner, [{ingestStatus && (<motion.div className={...}>)}]:
    green when the text includes the check mark, else red when it includes
    the cross mark, else blue; [None] when nothing is rendered. *)
Definition status_banner (s : State) : option (StatusStyle * jsstring) :=
  match ingestStatus s with
  | Some st =>
      if truthy st
      then Some (if includes st check_mark then green
                 else if includes st cross_mark then red
                 else blue, st)
      else None
  | None => None
  end.

End Page2.

(** Running a task from a component state, with nothing sent yet. *)
Definition start {St} (s : St) : Heap St := {| ui := s; sent := []; drawn := 0 |}.

Definition run {St A} (t : Task St A) (s : St) : completion A * Heap St :=
  t (start s).

(** * The retrieval core

    [rag_core.py] and [app.py] are named by README.md but are not among the
    sources at hand; the definitions of this module follow the written
    specification of the core and say so. *)

Module Core.

Definition Key := string.
Definition Vector := list Q.

(** Modelled from the spec: the Row of section 3, which lives in the absent
    [rag_core.py].  A field is [None] when the uploaded table lacks it. *)
Record Row : Type := {
  namespace : option string;
  data_type : option string;
  title : option string;
  content : option string;
  keywords : option string
}.

(** Modelled from the spec: the Chunk of section 3 (absent [rag_core.py]):
    identity key, data_type, title, keywords, content and embedding vector. *)
Record Chunk : Type := {
  chunk_key : Key;
  chunk_data_type : string;
  chunk_title : string;
  chunk_keywords : string;
  chunk_content : string;
  chunk_vector : Vector
}.

(** Modelled from the spec: one record of the line-delimited metadata
    artifact of section 6 (absent [rag_core.py]): a chunk without its vector. *)
Record Meta : Type := {
  meta_key : Key;
  meta_data_type : string;
  meta_title : string;
  meta_keywords : string;
  meta_content : string
}.

(** Modelled from the spec: the Company Store of section 3 (absent
    [rag_core.py]): the chunks in append order, the array of their vectors,
    the metadata entries and the set of known identity keys. *)
Record Store : Type := {
  chunks : list Chunk;
  vectors : list Vector;
  metadata : list Meta;
  keys : gset Key
}.

Definition empty_store : Store :=
  {| chunks := []; vectors := []; metadata := []; keys := ∅ |}.

Definition meta_of (c : Chunk) : Meta :=
  {| meta_key := chunk_key c; meta_data_type := chunk_data_type c;
     meta_title := chunk_title c; meta_keywords := chunk_keywords c;
     meta_content := chunk_content c |}.

(** Modelled from the spec: [append(new_chunks)] of section 4.2 (absent
    [rag_core.py]); it adds the chunks to the in-memory structure.  The
    persisted artifacts are replaced together and are not kept apart from
    the in-memory structure here. *)
Definition append (s : Store) (new_chunks : list Chunk) : Store :=
  {| chunks := chunks s ++ new_chunks;
     vectors := vectors s ++ map chunk_vector new_chunks;
     metadata := metadata s ++ map meta_of new_chunks;
     keys := keys s ∪ list_to_set (map chunk_key new_chunks) |}.

(** The size of a store: its number of chunks. *)
Definition store_size (s : Store) : nat := length (chunks s).

(** Modelled from the spec: the Store Registry of section 2 (absent
    [rag_core.py]), a map from namespace to store; a namespace never
    ingested reads as the empty store. *)
Definition load (reg : gmap string Store) (ns : string) : Store :=
  default empty_store (reg !! ns).

(** Modelled from the spec: [reset()] of section 4.2 (absent [rag_core.py]):
    the namespace is wiped and recreated. *)
Definition reset (reg : gmap string Store) (ns : string) : gmap string Store :=
  <[ns := empty_store]> reg.

(** Modelled from the spec: a row is malformed when a required field is
    missing (sections 4.3 and 6; absent [app.py]). *)
Definition well_formed (r : Row) : bool :=
  bool_decide (is_Some (namespace r)) && bool_decide (is_Some (data_type r))
  && bool_decide (is_Some (title r)) && bool_decide (is_Some (content r))
  && bool_decide (is_Some (keywords r)).

(** The index of the first malformed row, if any. *)
Fixpoint first_malformed (i : nat) (rows : list Row) : option nat :=
  match rows with
  | [] => None
  | r :: rows' => if well_formed r then first_malformed (S i) rows' else Some i
  end.

Inductive IngestError : Type :=
| ValidationError (row : nat)
| EmbeddingServiceError.

Inductive IngestOutcome : Type :=
| Added (new_records : nat)
| Failed (e : IngestError).

(** The number of records a call added. *)
Definition newly_added (o : IngestOutcome) : nat :=
  match o with
  | Added n => n
  | Failed _ => 0
  end.

Section Pipeline.

(** The deterministic hash of the Fingerprint Index and the batch embedding
    capability ([None]: the capability failed), both external to the core. *)
Variable hash : string * string * string -> Key.
Variable embed : list Row -> option (list Vector).

(** Modelled from the spec: [identity(row)] of section 4.1 (absent
    [rag_core.py]): the hash of (data_type, title, content); keywords and
    namespace take no part. *)
Definition identity (r : Row) : Key :=
  hash (default "" (data_type r), default "" (title r), default "" (content r)).

(** Modelled from the spec: [is_duplicate(key)] of section 4.1 (absent
    [rag_core.py]), checked against the store's key set and the in-batch
    working set. *)
Definition is_duplicate (store_keys batch_keys : gset Key) (k : Key) : bool :=
  bool_decide (k ∈ store_keys) || bool_decide (k ∈ batch_keys).

(** Modelled from the spec: the dedup pass of section 4.3 (absent
    [rag_core.py]): rows are taken in order, a duplicate is skipped, an
    accepted row enters the working set. *)
Fixpoint surviving (store_keys batch_keys : gset Key) (rows : list Row)
  : list Row :=
  match rows with
  | [] => []
  | r :: rows' =>
      let k := identity r in
      if is_duplicate store_keys batch_keys k
      then surviving store_keys batch_keys rows'
      else r :: surviving store_keys ({[k]} ∪ batch_keys) rows'
  end.

Definition make_chunk (r : Row) (v : Vector) : Chunk :=
  {| chunk_key := identity r;
     chunk_data_type := default "" (data_type r);
     chunk_title := default "" (title r);
     chunk_keywords := default "" (keywords r);
     chunk_content := default "" (content r);
     chunk_vector := v |}.

(** Modelled from the spec: the Ingestion Pipeline of section 4.3 (absent
    [rag_core.py] and [app.py]).  Malformed rows are rejected before any
    mutation; with the reset flag the rows are matched against the wiped
    store; a failed embedding leaves the registry as it was; on success the
    chunks are appended and the number of new records is returned. *)
Definition ingest (reg : gmap string Store) (ns : string) (rows : list Row)
    (reset_flag : bool) : IngestOutcome * gmap string Store :=
  match first_malformed 0 rows with
  | Some i => (Failed (ValidationError i), reg)
  | None =>
      let store := if reset_flag then empty_store else load reg ns in
      let fresh := surviving (keys store) ∅ rows in
      match embed fresh with
      | None => (Failed EmbeddingServiceError, reg)
      | Some vs =>
          let new_chunks := zip_with make_chunk fresh vs in
          (Added (length new_chunks), <[ns := append store new_chunks]> reg)
      end
  end.

(** A mutation of the registry: an ingestion or a reset. *)
Inductive Mutation : Type :=
| Ingest (ns : string) (rows : list Row) (reset_flag : bool)
| Reset (ns : string).

Definition apply_mutation (reg : gmap string Store) (m : Mutation)
  : gmap string Store :=
  match m with
  | Ingest ns rows reset_flag => snd (ingest reg ns rows reset_flag)
  | Reset ns => reset reg ns
  end.

Definition apply_mutations (reg : gmap string Store) (ms : list Mutation)
  : gmap string Store := foldl apply_mutation reg ms.

End Pipeline.

(** The invariant of a store (section 3): as many vectors as chunks as
    metadata entries, and the vector at a position is that of the chunk at
    the same position. *)
Definition consistent (s : Store) : Prop :=
  length (vectors s) = length (chunks s)
  /\ length (chunks s) = length (metadata s)
  /\ forall i c, chunks s !! i = Some c -> vectors s !! i = Some (chunk_vector c).

(** Every store of the registry, and the empty store a namespace without
    one reads as, is consistent. *)
Definition registry_consistent (reg : gmap string Store) : Prop :=
  forall ns, consistent (load reg ns).

(** The identity triple of a row: what two rows must share to be
    duplicates. *)
Definition triple (r : Row) : option string * option string * option string :=
  (data_type r, title r, content r).

End Core.

(** * The Retriever: candidate ranking and MMR (section 4.4) *)

Module Retriever.

Local Open Scope Q_scope.

(** Modelled from the spec: a member of the candidate pool (absent
    [rag_core.py]): the position of its chunk in the store (the insertion
    order), its relevance (cosine similarity to the query) and its vector. *)
Record Candidate : Type := {
  position : nat;
  relevance : Q;
  vector : list Q
}.

(** Vectors are normalised when embedded, so cosine similarity is the dot
    product. *)
Fixpoint dot (u v : list Q) : Q :=
  match u, v with
  | x :: u', y :: v' => x * y + dot u' v'
  | _, _ => 0
  end.

Definition similarity (c d : Candidate) : Q := dot (vector c) (vector d).

Definition Qmax (x y : Q) : Q :=
  match x ?= y with
  | Lt => y
  | _ => x
  end.

(** Modelled from the spec: the candidate's maximum similarity to any
    already-selected chunk, 0 if the selected list is empty. *)
Definition max_similarity (c : Candidate) (selected : list Candidate) : Q :=
  match selected with
  | [] => 0
  | s :: rest => fold_left (fun m d => Qmax m (similarity c d)) rest (similarity c s)
  end.

(** Modelled from the spec:
    [λ * relevance(c) - (1 - λ) * max_similarity(c, selected)]. *)
Definition mmr_score (lambda : Q) (selected : list Candidate) (c : Candidate) : Q :=
  lambda * relevance c - (1 - lambda) * max_similarity c selected.

(** Higher relevance first, then earlier insertion. *)
Definition by_relevance (a b : Candidate) : bool :=
  match relevance a ?= relevance b with
  | Gt => true
  | Lt => false
  | Eq => (position a <? position b)%nat
  end.

(** Modelled from the spec: [a] is picked before [b] when its MMR score is
    higher; ties are broken by higher original relevance, then insertion
    order. *)
Definition preferred (lambda : Q) (selected : list Candidate)
    (a b : Candidate) : bool :=
  match mmr_score lambda selected a ?= mmr_score lambda selected b with
  | Gt => true
  | Lt => false
  | Eq => by_relevance a b
  end.

(** The pick of one round: the candidate no other is preferred to (the
    earliest in the pool among equals), and the pool without it. *)
Fixpoint pick (pref : Candidate -> Candidate -> bool) (pool : list Candidate)
  : option (Candidate * list Candidate) :=
  match pool with
  | [] => None
  | c :: pool' =>
      match pick pref pool' with
      | None => Some (c, [])
      | Some (b, rest) =>
          if pref b c then Some (b, c :: rest) else Some (c, pool')
      end
  end.

(** Modelled from the spec: MMR selection (step 4; absent [rag_core.py]):
    start from an empty selected list and pick until [top_k] items are
    selected or the candidates are exhausted. *)
Fixpoint mmr_loop (lambda : Q) (top_k : nat) (selected remaining : list Candidate)
  : list Candidate :=
  match top_k with
  | O => selected
  | S k =>
      match pick (preferred lambda selected) remaining with
      | None => selected
      | Some (c, rest) => mmr_loop lambda k (selected ++ [c]) rest
      end
  end.

Definition mmr (lambda : Q) (pool : list Candidate) (top_k : nat) : list Candidate :=
  mmr_loop lambda top_k [] pool.

(** Modelled from the spec: plain similarity ranking (step 3): by similarity
    descending, ties broken by earlier insertion order, stable. *)
Fixpoint insert_ranked (c : Candidate) (ranked : list Candidate) : list Candidate :=
  match ranked with
  | [] => [c]
  | d :: ranked' =>
      if by_relevance d c then d :: insert_ranked c ranked' else c :: ranked
  end.

Definition rank_by_similarity (pool : list Candidate) : list Candidate :=
  foldr insert_ranked [] pool.

Definition plain_top_k (pool : list Candidate) (top_k : nat) : list Candidate :=
  take top_k (rank_by_similarity pool).

End Retriever.

(** * Vocabulary of the statements

    What the claims say the helpers send and return, written out once so
    that the theorems can compare it with what the code does. *)

(** The request the specification expects of [chat]. *)
Definition expected_chat_request (env : Env) (company query : jsstring)
    (top_k : number) : Request :=
  {| url := API_BASE env ++ lit "/v1/chat";
     method := POST;
     headers := [(lit "Content-Type", lit "application/json")];
     body := JsonText (JObject [(lit "company", JString company);
                                (lit "query", JString query);
                                (lit "top_k", json_of_number top_k)]) |}.

(** The request the specification expects of [ingestCSV]. *)
Definition expected_ingest_request (env : Env) (company : jsstring)
    (file : File) (reset : bool) : Request :=
  {| url := API_BASE env ++ lit "/v1/ingest";
     method := POST;
     headers := [];
     body := Multipart [(lit "company", FormText company);
                        (lit "reset", FormText (if reset then lit "true" else lit "false"));
                        (lit "file", FormBlob file)] |}.

(** What a helper makes of the answer to its request: a rejected fetch is
    rethrown, a response that is not ok becomes an [Error] carrying the body
    text, an ok response yields its parsed body. *)
Definition helper_result {T} (answer : completion (Response T)) : completion T :=
  match answer with
  | Throw e => Throw e
  | Normal res => if ok res then json_body res else Throw (new_Error (text res))
  end.

(** The names of the form fields of a request, in order. *)
Definition form_field_names (req : Request) : list jsstring :=
  match body req with
  | Multipart form => map fst form
  | JsonText _ => []
  end.

(** The names of the fields of the JSON body of a request, in order. *)
Definition json_field_names (req : Request) : list jsstring :=
  match body req with
  | JsonText doc => field_names doc
  | Multipart _ => []
  end.

(** [obj[name]] on the fields of a JSON object. *)
Fixpoint lookup_field (name : jsstring) (fields : list (jsstring * json))
  : option json :=
  match fields with
  | [] => None
  | (k, v) :: rest =>
      if bool_decide (k = name) then Some v else lookup_field name rest
  end.

(** The [top_k] a request carries in its JSON body. *)
Definition body_top_k (req : Request) : option json :=
  match body req with
  | JsonText (JObject fields) => lookup_field (lit "top_k") fields
  | _ => None
  end.

(** The state of the first revision that a state of the second one shows
    once the sidebar flag, which only the second has, is left out. *)
Definition view (s : Page2.State) : Page1.State :=
  {| Page1.company := Page2.company s;
     Page1.file := Page2.file s;
     Page1.reset := Page2.reset s;
     Page1.ingestStatus := Page2.ingestStatus s;
     Page1.query := Page2.query s;
     Page1.topK := Page2.topK s;
     Page1.loading := Page2.loading s;
     Page1.messages := Page2.messages s |}.

(** A completion that is not an error with an empty message. *)
Definition no_empty_error {A} (c : completion A) : Prop :=
  forall e, c = Throw e -> message e <> [].

(** A string made of white space only (the empty string included). *)
Definition whitespace_only (s : jsstring) : bool := forallb is_white_space s.

(** Typing a question and sending it with the button, in the first and in
    the second revision. *)
Definition ask1 (env : Env) (question : jsstring) : Task Page1.State unit :=
  Page1.onChange_query question;; dispatch (Page1.onClick_send env).

Definition ask2 (env : Env) (question : jsstring) : Task Page2.State unit :=
  Page2.onChange_query question;; dispatch (Page2.onClick_send env).

(** A conversation: the questions asked one after the other. *)
Fixpoint conversation1 (env : Env) (questions : list jsstring)
  : Task Page1.State unit :=
  match questions with
  | [] => mret tt
  | q :: rest => ask1 env q;; conversation1 env rest
  end.

Fixpoint conversation2 (env : Env) (questions : list jsstring)
  : Task Page2.State unit :=
  match questions with
  | [] => mret tt
  | q :: rest => ask2 env q;; conversation2 env rest
  end.

(** A question that is not blank. *)
Definition not_blank (q : jsstring) : bool := truthy (trim q).

(** The fields of a JSON request body that hold strings. *)
Definition body_string (name : jsstring) (req : Request) : option jsstring :=
  match body req with
  | JsonText (JObject fields) =>
      match lookup_field name fields with
      | Some (JString s) => Some s
      | _ => None
      end
  | _ => None
  end.

(** The first and the last code unit of [q] are not white space (so [q] is
    not empty). *)
Definition trimmed (q : jsstring) : Prop :=
  (exists c, head q = Some c /\ is_white_space c = false)
  /\ (exists c, last q = Some c /\ is_white_space c = false).

(** The roles of the messages that [n] answered questions add. *)
Fixpoint turns (n : nat) : list Role :=
  match n with
  | O => []
  | S k => user :: assistant :: turns k
  end.

(** The questions of a list of messages: the contents of those whose role
    is [user], in order. *)
Fixpoint questions_of (ms : list Message.t) : list jsstring :=
  match ms with
  | [] => []
  | m :: rest =>
      match Message.role m with
      | user => Message.content m :: questions_of rest
      | assistant => questions_of rest
      end
  end.

(** The questions of a list that are not blank, in order. *)
Fixpoint asked (questions : list jsstring) : list jsstring :=
  match questions with
  | [] => []
  | q :: rest => if not_blank q then q :: asked rest else asked rest
  end.

(** What a conversation leaves behind, stated on the part both revisions
    share: seen from a heap whose page is enabled, the questions that are
    not blank each add one request, in order, and a user message followed by
    an assistant message. *)
Definition conversation_result (env : Env) (questions : list jsstring)
    (company : jsstring) (topK : number) (sent0 sent1 : list Request)
    (messages0 messages1 : list Message.t) : Prop :=
  sent1 = sent0 ++ map (fun q => expected_chat_request env (trim company)
                                   (trim q) topK) (asked questions)
  /\ exists new,
       messages1 = messages0 ++ new
       /\ map Message.role new = turns (length (asked questions))
       /\ questions_of new = map trim (asked questions).

(** The heap after [value] was typed into the query box. *)
Definition typing1 (value : jsstring) (h : Heap Page1.State)
  : Heap Page1.State := snd (Page1.onChange_query value h).

Definition typing2 (value : jsstring) (h : Heap Page2.State)
  : Heap Page2.State := snd (Page2.onChange_query value h).

(** Nothing was sent, or one chat request whose company and query are the
    trimmed inputs and are not empty. *)
Definition nothing_or_complete (env : Env) (company query : jsstring)
    (topK : number) (requests : list Request) : Prop :=
  requests = []
  \/ (trim company <> [] /\ trim query <> []
      /\ requests = [expected_chat_request env (trim company) (trim query) topK]).

(** A citation as the first revision writes it: [(data_type · title)]. *)
Definition citation_text (c : Citation.t) : jsstring :=
  lit "(" ++ Citation.data_type c ++ lit " " ++ [183%N] ++ lit " "
  ++ Citation.title c ++ lit ")".

(** The transient status line of an upload in progress. *)
Definition uploading_status : jsstring := lit "Uploading & indexing" ++ ellipsis.

(** The banner of the second revision once [handleUpload] has run. *)
Definition status_banner_after_upload (env : Env) (props : Page2.State)
  : option (Page2.StatusStyle * jsstring) :=
  Page2.status_banner (ui (snd (run (Page2.handleUpload env props) props))).

(** ** Concrete inputs for the examples *)

Definition sample_file : File :=
  {| file_name := lit "docs.csv"; file_bytes := [97%N; 44%N; 98%N] |}.

(** An environment whose two routes answer every request the same way. *)
Definition env_answering (ingest_answer : completion (Response IngestResponse.t))
    (chat_answer : completion (Response ChatResponse.t)) : Env :=
  {| NEXT_PUBLIC_API_BASE := None;
     ingest_route := fun _ => ingest_answer;
     chat_route := fun _ => chat_answer;
     uuid := fun n => lit "uuid-" ++ String_number (Int (Z.of_nat n)) |}.

Definition ok_response {T} (parsed : T) : completion (Response T) :=
  Normal {| ok := true; text := lit "{...}"; json_body := Normal parsed |}.

Definition failed_response {T} (body_text : jsstring) : completion (Response T) :=
  Normal {| ok := false; text := body_text;
            json_body := Throw (new_Error (lit "Unexpected token")) |}.

Definition sample_ingest_body (body_ok : bool) : IngestResponse.t :=
  {| IngestResponse.ok := body_ok;
     IngestResponse.company := lit "myco";
     IngestResponse.records := Int 123 |}.

Definition sample_chat_body : ChatResponse.t :=
  {| ChatResponse.company := lit "myco";
     ChatResponse.query := lit "How to log in?";
     ChatResponse.top_k := Int 3;
     ChatResponse.answer := lit "Reset your password via email.";
     ChatResponse.citations :=
       [{| Citation.data_type := lit "faq"; Citation.title := lit "Login issue" |}];
     ChatResponse.hits :=
       [{| ChatHit.score := 3 # 4; ChatHit.data_type := lit "faq";
           ChatHit.title := lit "Login issue";
           ChatHit.keywords := lit "login,password" |}] |}.

(** A quiet environment: both routes answer ok. *)
Definition env_ok (body_ok : bool) : Env :=
  env_answering (ok_response (sample_ingest_body body_ok))
                (ok_response sample_chat_body).

(** An environment whose routes answer with a status that is not ok and
    the given body text. *)
Definition env_failing (body_text : jsstring) : Env :=
  env_answering (failed_response body_text) (failed_response body_text).

(** An environment whose chat route answers without citations and hits. *)
Definition env_no_sources : Env :=
  env_answering (ok_response (sample_ingest_body true))
    (ok_response
       {| ChatResponse.company := lit "myco";
          ChatResponse.query := lit "How to log in?";
          ChatResponse.top_k := Int 3;
          ChatResponse.answer := lit "No data for this company.";
          ChatResponse.citations := [];
          ChatResponse.hits := [] |}).

(** An environment without a network: every fetch is rejected. *)
Definition env_offline : Env :=
  env_answering (Throw (new_Error (lit "Failed to fetch")))
                (Throw (new_Error (lit "Failed to fetch"))).

(** The body of a reply that holds the answer alone, as README.md allows
    for the pure-LLM flow: [{ "answer": "..." }]. *)
Definition answer_only_body : json :=
  JObject [(lit "answer", JString (lit "Reset your password via email."))].

(** The six field names of the [ChatResponse] type. *)
Definition ChatResponse_fields : list jsstring :=
  [lit "company"; lit "query"; lit "top_k"; lit "answer"; lit "citations";
   lit "hits"].

(** The first revision after a file was chosen and a question typed. *)
Definition filled1 : Page1.State :=
  {| Page1.company := lit " myco ";
     Page1.file := Some sample_file;
     Page1.reset := true;
     Page1.ingestStatus := None;
     Page1.query := lit " How to log in? ";
     Page1.topK := Int 3;
     Page1.loading := false;
     Page1.messages := [] |}.

(** The same for the second revision. *)
Definition filled2 : Page2.State :=
  {| Page2.company := lit " myco ";
     Page2.file := Some sample_file;
     Page2.reset := true;
     Page2.ingestStatus := None;
     Page2.query := lit " How to log in? ";
     Page2.topK := Int 3;
     Page2.loading := false;
     Page2.messages := [];
     Page2.sidebarOpen := true |}.

(** The status line of a successful upload:
    [`✅ Ingested ${res.records} rows for "${res.company}".`] *)
Definition ingested_status (records : number) (company : jsstring) : jsstring :=
  check_mark ++ lit " Ingested " ++ String_number records
  ++ lit " rows for " ++ dquote ++ company ++ dquote ++ lit ".".

(** The message [handleSend] appends for the user's question. *)
Definition user_message (id q : jsstring) : Message.t :=
  {| Message.id := id; Message.role := user; Message.content := q;
     Message.citations := None; Message.hits := None |}.

(** The assistant message the specification expects for a response: the
    answer, or "(no answer)" when it is empty, with the citations and hits. *)
Definition answer_message (id : jsstring) (res : ChatResponse.t) : Message.t :=
  {| Message.id := id; Message.role := assistant;
     Message.content :=
       match ChatResponse.answer res with
       | [] => lit "(no answer)"
       | _ :: _ => ChatResponse.answer res
       end;
     Message.citations := Some (ChatResponse.citations res);
     Message.hits := Some (ChatResponse.hits res) |}.

(** An assistant message that reports an error with the given text. *)
Definition error_message (id text : jsstring) : Message.t :=
  {| Message.id := id; Message.role := assistant;
     Message.content := cross_mark ++ lit " Error: " ++ text;
     Message.citations := None; Message.hits := None |}.

(** [m] is an assistant message that begins with the error mark and
    "Error:" followed by [text]; it is exactly that when [text] is not
    empty. *)
Definition reports_error (m : Message.t) (text : jsstring) : Prop :=
  Message.role m = assistant
  /\ (cross_mark ++ lit " Error: " ++ text) `prefix_of` Message.content m
  /\ (text <> [] -> Message.content m = cross_mark ++ lit " Error: " ++ text).

(** Typing [value] into the top-k box and [question] into the query box of
    a fresh page. *)
Definition typed1 (value question : jsstring) : Page1.State :=
  ui (snd (run (Page1.onChange_topK value;; Page1.setQuery question)
               Page1.initial)).

Definition typed2 (value question : jsstring) : Page2.State :=
  ui (snd (run (Page2.onChange_topK value;; Page2.setQuery question)
               Page2.initial)).

(** A hash and an embedding capability to run the pipeline on: the hash
    joins the three fields, the capability gives every row the same unit
    vector. *)
Definition sample_hash (t : string * string * string) : Core.Key :=
  (t.1.1 +:+ "|" +:+ t.1.2 +:+ "|" +:+ t.2)%string.

Definition sample_embed (rows : list Core.Row) : option (list Core.Vector) :=
  Some (map (fun _ => [1%Q; 0%Q]) rows).

(** The row of the specification's example, and the same row with other
    keywords. *)
Definition login_row (kw : string) : Core.Row :=
  {| Core.namespace := Some "myapp";
     Core.data_type := Some "faq";
     Core.title := Some "Login issue";
     Core.content := Some "Reset your password via email.";
     Core.keywords := Some kw |}.

(** A pool of three candidates: two near-duplicates of high relevance and a
    different one of lower relevance. *)
Definition sample_pool : list Retriever.Candidate :=
  [ {| Retriever.position := 0; Retriever.relevance := 9 # 10;
       Retriever.vector := [1; 0] |};
    {| Retriever.position := 1; Retriever.relevance := 8 # 10;
       Retriever.vector := [1; 0] |};
    {| Retriever.position := 2; Retriever.relevance := 7 # 10;
       Retriever.vector := [0; 1] |} ]%Q.

(** * Theorems: the fetch helpers of lib/api.ts *)

Example parseInt10_50 : parseInt10 (lit "50") = Int 50.
Proof. reflexivity. Qed.

Example parseInt10_signed : parseInt10 (lit " -7x") = Int (-7).
Proof. reflexivity. Qed.

Example parseInt10_dot : parseInt10 (lit ".5") = NaN.
Proof. reflexivity. Qed.

Example trim_example : trim (lit "  hi there ") = lit "hi there".
Proof. reflexivity. Qed.

Example String_number_negative : String_number (Int (-120)) = lit "-120".
Proof. reflexivity. Qed.

(** Unfolds the monadic plumbing of a task. *)
Ltac task_unfold :=
  unfold mbind, mret, Task_bind, Task_ret, try_catch, try_finally, throw,
    modify, randomUUID, fetch, res_json in *.

(** [chat] sends one request, the expected one, and returns what
    [helper_result] makes of the answer. *)
Lemma chat_spec {St} (env : Env) (company query : jsstring)
    (top_k : option number) (h : Heap St) :
  let req := expected_chat_request env company query (default (Int 3) top_k) in
  chat env company query top_k h
  = (helper_result (chat_route env req),
     {| ui := ui h; sent := sent h ++ [req]; drawn := drawn h |}).
Proof.
  cbv zeta. unfold chat, expected_chat_request, helper_result. task_unfold.
  destruct (chat_route env _) as [res|e]; [|reflexivity].
  destruct (ok res); reflexivity.
Qed.

(** The same for [ingestCSV]. *)
Lemma ingestCSV_spec {St} (env : Env) (company : jsstring) (file : File)
    (reset : bool) (h : Heap St) :
  let req := expected_ingest_request env company file reset in
  ingestCSV env company file reset h
  = (helper_result (ingest_route env req),
     {| ui := ui h; sent := sent h ++ [req]; drawn := drawn h |}).
Proof.
  cbv zeta.
  unfold ingestCSV, expected_ingest_request, helper_result, FormData_append,
    String_boolean.
  task_unfold. simpl.
  destruct (ingest_route env _) as [res|e]; [|reflexivity].
  destruct (ok res); reflexivity.
Qed.

(** [chat_untyped] sends one request, the expected one, and returns what
    [helper_result] makes of the answer. *)
Lemma chat_untyped_spec {St T} (env : Env)
    (route : Request -> completion (Response T)) (company query : jsstring)
    (top_k : option number) (h : Heap St) :
  let req := expected_chat_request env company query (default (Int 3) top_k) in
  chat_untyped env route company query top_k h
  = (helper_result (route req),
     {| ui := ui h; sent := sent h ++ [req]; drawn := drawn h |}).
Proof.
  cbv zeta. unfold chat_untyped, expected_chat_request, helper_result.
  task_unfold.
  destruct (route _) as [res|e]; [|reflexivity].
  destruct (ok res); reflexivity.
Qed.

(** C1, as stated, fails: [chat] does not make the response have the shape
    of [ChatResponse].  To an ok reply whose body holds the answer alone it
    returns that body as it is: an object with the one field answer, without
    company, query, top_k, citations and hits. *)
Lemma chat_returns_a_body_without_citations_and_hits :
  fst (chat_untyped (St := unit) (env_ok true)
         (fun _ => ok_response answer_only_body)
         (lit "myco") (lit "How to log in?") (Some (Int 6))
         {| ui := tt; sent := []; drawn := 0 |})
  = Normal answer_only_body
  /\ field_names answer_only_body = [lit "answer"]
  /\ field_names answer_only_body <> ChatResponse_fields.
Proof. repeat split. discriminate. Qed.

(** C1, amended.  For every call [chat(company, query, top_k)] exactly one
    request goes out: a POST to [API_BASE/v1/chat] with the header
    Content-Type application/json and a JSON body whose fields are exactly
    company, query and top_k, holding the arguments.  On an ok response the
    call returns the parsed body as it is, whatever its type: the shape of
    [ChatResponse] is what the call sites declare for it, and [chat] there
    is this very function. *)
Theorem chat_sends_request_and_returns_parsed_body
    {St T} (env : Env) (route : Request -> completion (Response T))
    (company query : jsstring) (top_k : number) (h : Heap St) :
  let req := expected_chat_request env company query top_k in
  let out := chat_untyped env route company query (Some top_k) h in
  sent (snd out) = sent h ++ [req]
  /\ ui (snd out) = ui h
  /\ method req = POST
  /\ url req = API_BASE env ++ lit "/v1/chat"
  /\ headers req = [(lit "Content-Type", lit "application/json")]
  /\ json_field_names req = [lit "company"; lit "query"; lit "top_k"]
  /\ body req = JsonText (JObject [(lit "company", JString company);
                                   (lit "query", JString query);
                                   (lit "top_k", json_of_number top_k)])
  /\ fst out = helper_result (route req)
  /\ (forall res : Response T,
        route req = Normal res -> ok res = true ->
        fst out = json_body res)
  /\ chat env company query (Some top_k) h
     = chat_untyped env (chat_route env) company query (Some top_k) h.
Proof.
  intros req out. subst out. rewrite chat_untyped_spec. simpl. fold req.
  repeat split; try reflexivity.
  intros res Hres Hok. rewrite Hres. simpl. rewrite Hok. reflexivity.
Qed.

(** The premises are met by an ok reply of the declared shape, which comes
    back unchanged. *)
Lemma chat_sends_request_and_returns_parsed_body_witness :
  fst (chat (St := unit) (env_ok true) (lit "myco") (lit "How to log in?")
         (Some (Int 6)) {| ui := tt; sent := []; drawn := 0 |})
  = Normal sample_chat_body.
Proof.
  pose proof (chat_sends_request_and_returns_parsed_body
                (St := unit) (env_ok true) (chat_route (env_ok true))
                (lit "myco") (lit "How to log in?") (Int 6)
                {| ui := tt; sent := []; drawn := 0 |}) as H.
  cbv zeta in H.
  destruct H as (_ & _ & _ & _ & _ & _ & _ & _ & Hok & Hsame).
  rewrite Hsame.
  exact (Hok {| ok := true; text := lit "{...}";
                json_body := Normal sample_chat_body |} eq_refl eq_refl).
Defined.

(** * Theorems: the upload handler *)

(** What [handleUpload] of the first revision does once a file is chosen:
    one request, and a status line made from the helper's result. *)
Lemma handleUpload1_run (env : Env) (props : Page1.State) (f : File) :
  Page1.file props = Some f ->
  let req := expected_ingest_request env (trim (Page1.company props)) f
               (Page1.reset props) in
  let status :=
    match helper_result (ingest_route env req) with
    | Normal b => ingested_status (IngestResponse.records b)
                    (IngestResponse.company b)
    | Throw e => cross_mark ++ lit " " ++ or_else (message e) (lit "Upload failed")
    end in
  run (Page1.handleUpload env props) props
  = (Normal tt,
     {| ui := {| Page1.company := Page1.company props;
                 Page1.file := Page1.file props;
                 Page1.reset := Page1.reset props;
                 Page1.ingestStatus := Some status;
                 Page1.query := Page1.query props;
                 Page1.topK := Page1.topK props;
                 Page1.loading := Page1.loading props;
                 Page1.messages := Page1.messages props |};
        sent := [req]; drawn := 0 |}).
Proof.
  destruct props; simpl. intros ->. cbv zeta.
  unfold run, Page1.handleUpload, Page1.setIngestStatus. simpl.
  task_unfold. rewrite ingestCSV_spec. simpl.
  destruct (helper_result _); reflexivity.
Qed.

(** The same for the second revision, whose catch clause keeps an empty
    message. *)
Lemma handleUpload2_run (env : Env) (props : Page2.State) (f : File) :
  Page2.file props = Some f ->
  let req := expected_ingest_request env (trim (Page2.company props)) f
               (Page2.reset props) in
  let status :=
    match helper_result (ingest_route env req) with
    | Normal b => ingested_status (IngestResponse.records b)
                    (IngestResponse.company b)
    | Throw e => cross_mark ++ lit " " ++ message e
    end in
  run (Page2.handleUpload env props) props
  = (Normal tt,
     {| ui := {| Page2.company := Page2.company props;
                 Page2.file := Page2.file props;
                 Page2.reset := Page2.reset props;
                 Page2.ingestStatus := Some status;
                 Page2.query := Page2.query props;
                 Page2.topK := Page2.topK props;
                 Page2.loading := Page2.loading props;
                 Page2.messages := Page2.messages props;
                 Page2.sidebarOpen := Page2.sidebarOpen props |};
        sent := [req]; drawn := 0 |}).
Proof.
  destruct props; simpl. intros ->. cbv zeta.
  unfold run, Page2.handleUpload, Page2.setIngestStatus. simpl.
  task_unfold. rewrite ingestCSV_spec. simpl.
  destruct (helper_result _); reflexivity.
Qed.

(** C2, as stated, fails: the upload handler does not read the [ok] field of
    the parsed body.  Whether the body says [ok: false] or [ok: true], the
    status line reports the same successful ingestion. *)
Lemma handleUpload_ignores_body_ok :
  IngestResponse.ok (sample_ingest_body false) = false
  /\ Page1.ingestStatus
       (ui (snd (run (Page1.handleUpload (env_ok false) filled1) filled1)))
     = Some (ingested_status (Int 123) (lit "myco"))
  /\ Page1.ingestStatus
       (ui (snd (run (Page1.handleUpload (env_ok true) filled1) filled1)))
     = Some (ingested_status (Int 123) (lit "myco"))
  /\ Page2.ingestStatus
       (ui (snd (run (Page2.handleUpload (env_ok false) filled2) filled2)))
     = Some (ingested_status (Int 123) (lit "myco")).
Proof. repeat split; reflexivity. Qed.

(** C2, amended.  For every call [ingestCSV(company, file, reset)] exactly
    one request goes out: a POST to [API_BASE/v1/ingest] carrying a multipart
    form whose fields are exactly company, reset (the text "true" or "false")
    and file.  On an ok response the call returns the parsed body.  The
    upload handler of either revision reads the [records] and [company]
    fields of that body (and not its [ok] field) to report the ingested row
    count. *)
Theorem ingestCSV_sends_form_and_upload_reports_count
    {St} (env : Env) (company : jsstring) (file : File) (reset : bool)
    (h : Heap St) :
  let req := expected_ingest_request env company file reset in
  let out := ingestCSV env company file reset h in
  sent (snd out) = sent h ++ [req]
  /\ ui (snd out) = ui h
  /\ method req = POST
  /\ url req = API_BASE env ++ lit "/v1/ingest"
  /\ form_field_names req = [lit "company"; lit "reset"; lit "file"]
  /\ body req = Multipart [(lit "company", FormText company);
                           (lit "reset", FormText (String_boolean reset));
                           (lit "file", FormBlob file)]
  /\ (String_boolean reset = lit "true" \/ String_boolean reset = lit "false")
  /\ fst out = helper_result (ingest_route env req)
  /\ (forall res : Response IngestResponse.t,
        ingest_route env req = Normal res -> ok res = true ->
        fst out = json_body res)
  /\ (forall (props : Page1.State) (res : Response IngestResponse.t)
             (b : IngestResponse.t),
        Page1.file props = Some file ->
        trim (Page1.company props) = company ->
        Page1.reset props = reset ->
        ingest_route env req = Normal res -> ok res = true ->
        json_body res = Normal b ->
        Page1.ingestStatus
          (ui (snd (run (Page1.handleUpload env props) props)))
        = Some (ingested_status (IngestResponse.records b)
                  (IngestResponse.company b)))
  /\ (forall (props : Page2.State) (res : Response IngestResponse.t)
             (b : IngestResponse.t),
        Page2.file props = Some file ->
        trim (Page2.company props) = company ->
        Page2.reset props = reset ->
        ingest_route env req = Normal res -> ok res = true ->
        json_body res = Normal b ->
        Page2.ingestStatus
          (ui (snd (run (Page2.handleUpload env props) props)))
        = Some (ingested_status (IngestResponse.records b)
                  (IngestResponse.company b))).
Proof.
  intros req out. subst out. rewrite ingestCSV_spec. simpl. fold req.
  repeat split; try reflexivity.
  - destruct reset; [left|right]; reflexivity.
  - intros res Hres Hok. rewrite Hres. simpl. rewrite Hok. reflexivity.
  - intros props res b Hf Hc Hr Hres Hok Hb.
    rewrite (handleUpload1_run env props file Hf). cbn [snd ui Page1.ingestStatus].
    rewrite Hc, Hr. fold req. rewrite Hres. simpl. rewrite Hok, Hb. reflexivity.
  - intros props res b Hf Hc Hr Hres Hok Hb.
    rewrite (handleUpload2_run env props file Hf). cbn [snd ui Page2.ingestStatus].
    rewrite Hc, Hr. fold req. rewrite Hres. simpl. rewrite Hok, Hb. reflexivity.
Qed.

(** The conditions of the last two parts are met by a real upload. *)
Lemma ingestCSV_sends_form_and_upload_reports_count_witness :
  Page1.ingestStatus
    (ui (snd (run (Page1.handleUpload (env_ok true) filled1) filled1)))
  = Some (ingested_status (Int 123) (lit "myco")).
Proof.
  pose proof (ingestCSV_sends_form_and_upload_reports_count
                (St := unit) (env_ok true) (lit "myco") sample_file true
                {| ui := tt; sent := []; drawn := 0 |}) as H.
  cbv zeta in H.
  destruct H as (_ & _ & _ & _ & _ & _ & _ & _ & _ & H1 & _).
  exact (H1 filled1
           {| ok := true; text := lit "{...}";
              json_body := Normal (sample_ingest_body true) |}
           (sample_ingest_body true)
           eq_refl eq_refl eq_refl eq_refl eq_refl eq_refl).
Defined.

(** * Theorems: the send handler *)

Lemma trimStart_whitespace_only (s : jsstring) :
  whitespace_only s = true -> trimStart s = [].
Proof.
  induction s as [|c s IH]; simpl; [reflexivity|].
  intros H. apply andb_true_iff in H as [Hc Hs]. rewrite Hc. auto.
Qed.

Lemma trim_whitespace_only (s : jsstring) :
  whitespace_only s = true -> trim s = [].
Proof.
  intros H. unfold trim. rewrite trimStart_whitespace_only by exact H.
  reflexivity.
Qed.

(** With nothing but white space in the box, [handleSend] returns at once. *)
Lemma handleSend1_blank (env : Env) (props : Page1.State) :
  trim (Page1.query props) = [] ->
  run (Page1.handleSend env props) props = (Normal tt, start props).
Proof. intros H. unfold run, Page1.handleSend. rewrite H. reflexivity. Qed.

Lemma handleSend2_blank (env : Env) (props : Page2.State) :
  trim (Page2.query props) = [] ->
  run (Page2.handleSend env props) props = (Normal tt, start props).
Proof. intros H. unfold run, Page2.handleSend. rewrite H. reflexivity. Qed.

(** What [handleSend] of the first revision does with a question: the user
    message, one request, the assistant message, and [loading] back to
    false. *)
Lemma handleSend1_run (env : Env) (props : Page1.State) :
  trim (Page1.query props) <> [] ->
  let q := trim (Page1.query props) in
  let req := expected_chat_request env (trim (Page1.company props)) q
               (Page1.topK props) in
  let reply :=
    match helper_result (chat_route env req) with
    | Normal res => answer_message (uuid env 1) res
    | Throw e => error_message (uuid env 1)
                   (or_else (message e) (lit "request failed"))
    end in
  run (Page1.handleSend env props) props
  = (Normal tt,
     {| ui := {| Page1.company := Page1.company props;
                 Page1.file := Page1.file props;
                 Page1.reset := Page1.reset props;
                 Page1.ingestStatus := Page1.ingestStatus props;
                 Page1.query := [];
                 Page1.topK := Page1.topK props;
                 Page1.loading := false;
                 Page1.messages :=
                   (Page1.messages props ++ [user_message (uuid env 0) q])
                   ++ [reply] |};
        sent := [req]; drawn := 2 |}).
Proof.
  destruct props as [c f r st qy k ld ms]; simpl. intros Hq. cbv zeta.
  unfold run, Page1.handleSend. simpl.
  destruct (trim qy) as [|x q'] eqn:E; [contradiction|].
  unfold Page1.setMessages, Page1.setQuery, Page1.setLoading.
  task_unfold. simpl. rewrite chat_spec. simpl.
  destruct (helper_result _) as [res|e]; simpl; [|reflexivity].
  unfold answer_message, or_else. destruct (ChatResponse.answer res); reflexivity.
Qed.

Lemma handleSend2_run (env : Env) (props : Page2.State) :
  trim (Page2.query props) <> [] ->
  let q := trim (Page2.query props) in
  let req := expected_chat_request env (trim (Page2.company props)) q
               (Page2.topK props) in
  let reply :=
    match helper_result (chat_route env req) with
    | Normal res => answer_message (uuid env 1) res
    | Throw e => error_message (uuid env 1) (message e)
    end in
  run (Page2.handleSend env props) props
  = (Normal tt,
     {| ui := {| Page2.company := Page2.company props;
                 Page2.file := Page2.file props;
                 Page2.reset := Page2.reset props;
                 Page2.ingestStatus := Page2.ingestStatus props;
                 Page2.query := [];
                 Page2.topK := Page2.topK props;
                 Page2.loading := false;
                 Page2.messages :=
                   (Page2.messages props ++ [user_message (uuid env 0) q])
                   ++ [reply];
                 Page2.sidebarOpen := Page2.sidebarOpen props |};
        sent := [req]; drawn := 2 |}).
Proof.
  destruct props as [c f r st qy k ld ms sb]; simpl. intros Hq. cbv zeta.
  unfold run, Page2.handleSend. simpl.
  destruct (trim qy) as [|x q'] eqn:E; [contradiction|].
  unfold Page2.setMessages, Page2.setQuery, Page2.setLoading.
  task_unfold. simpl. rewrite chat_spec. simpl.
  destruct (helper_result _) as [res|e]; simpl; [|reflexivity].
  unfold answer_message, or_else. destruct (ChatResponse.answer res); reflexivity.
Qed.

(** [handleSend] always completes normally. *)
Lemma handleSend1_returns (env : Env) (props : Page1.State) :
  fst (run (Page1.handleSend env props) props) = Normal tt.
Proof.
  destruct (trim (Page1.query props)) eqn:E.
  - rewrite handleSend1_blank by exact E. reflexivity.
  - rewrite handleSend1_run by congruence. reflexivity.
Qed.

Lemma handleSend2_returns (env : Env) (props : Page2.State) :
  fst (run (Page2.handleSend env props) props) = Normal tt.
Proof.
  destruct (trim (Page2.query props)) eqn:E.
  - rewrite handleSend2_blank by exact E. reflexivity.
  - rewrite handleSend2_run by congruence. reflexivity.
Qed.

(** C3 fails on the code.  The box declares [min=1] and [max=20], but its
    [onChange] stores [parseInt] of whatever was typed and [handleSend]
    passes the stored value on: after typing 50 the request carries
    [top_k = 50], above the declared maximum, in both revisions. *)
Theorem topK_entry_is_not_clamped (env : Env) :
  Page1.topK (typed1 (lit "50") (lit "hi")) = Int 50
  /\ map body_top_k
       (sent (snd (run (Page1.handleSend env (typed1 (lit "50") (lit "hi")))
                       (typed1 (lit "50") (lit "hi")))))
     = [Some (JNumber (inject_Z 50))]
  /\ map body_top_k
       (sent (snd (run (Page2.handleSend env (typed2 (lit "50") (lit "hi")))
                       (typed2 (lit "50") (lit "hi")))))
     = [Some (JNumber (inject_Z 50))]
  /\ topK_input_max < 50
  /\ Page1.topK (typed1 (lit "0") (lit "hi")) = Int 0
  /\ 0 < topK_input_min.
Proof.
  split; [reflexivity|]. split.
  - rewrite handleSend1_run by (vm_compute; discriminate). reflexivity.
  - split.
    + rewrite handleSend2_run by (vm_compute; discriminate). reflexivity.
    + repeat split; reflexivity.
Qed.

(** C9. A call of [chat] without [top_k] sends a body whose [top_k] is 3,
    and both revisions of the page start their top-k box at 3. *)
Theorem chat_default_top_k_is_3
    {St} (env : Env) (company query : jsstring) (h : Heap St) :
  sent (snd (chat env company query None h))
  = sent h ++ [expected_chat_request env company query (Int 3)]
  /\ body_top_k (expected_chat_request env company query (Int 3))
     = Some (JNumber (inject_Z 3))
  /\ Page1.topK Page1.initial = Int 3
  /\ Page2.topK Page2.initial = Int 3.
Proof. rewrite chat_spec. repeat split; reflexivity. Qed.

(** C10. A query that is empty or white space only makes [handleSend]
    return without a request and with the state untouched; an upload with no
    file chosen makes [handleUpload] send nothing and change nothing but
    [ingestStatus], which becomes "Please choose a CSV file first.".  Both
    hold in both revisions. *)
Theorem degenerate_inputs_send_nothing (env : Env) :
  (forall props : Page1.State,
     whitespace_only (Page1.query props) = true ->
     run (Page1.handleSend env props) props = (Normal tt, start props))
  /\ (forall props : Page2.State,
        whitespace_only (Page2.query props) = true ->
        run (Page2.handleSend env props) props = (Normal tt, start props))
  /\ (forall props : Page1.State,
        Page1.file props = None ->
        run (Page1.handleUpload env props) props
        = (Normal tt,
           start {| Page1.company := Page1.company props;
                    Page1.file := Page1.file props;
                    Page1.reset := Page1.reset props;
                    Page1.ingestStatus :=
                      Some (lit "Please choose a CSV file first.");
                    Page1.query := Page1.query props;
                    Page1.topK := Page1.topK props;
                    Page1.loading := Page1.loading props;
                    Page1.messages := Page1.messages props |}))
  /\ (forall props : Page2.State,
        Page2.file props = None ->
        run (Page2.handleUpload env props) props
        = (Normal tt,
           start {| Page2.company := Page2.company props;
                    Page2.file := Page2.file props;
                    Page2.reset := Page2.reset props;
                    Page2.ingestStatus :=
                      Some (lit "Please choose a CSV file first.");
                    Page2.query := Page2.query props;
                    Page2.topK := Page2.topK props;
                    Page2.loading := Page2.loading props;
                    Page2.messages := Page2.messages props;
                    Page2.sidebarOpen := Page2.sidebarOpen props |})).
Proof.
  repeat split.
  - intros props H. apply handleSend1_blank, trim_whitespace_only, H.
  - intros props H. apply handleSend2_blank, trim_whitespace_only, H.
  - intros props H. destruct props; simpl in H; subst. reflexivity.
  - intros props H. destruct props; simpl in H; subst. reflexivity.
Qed.

(** The premises are met: a query of blanks and tabs, and no file chosen. *)
Lemma degenerate_inputs_send_nothing_witness :
  sent (snd (run (Page1.handleSend (env_ok true)
                    (typed1 (lit "7") [32%N; 9%N; 160%N]))
                 (typed1 (lit "7") [32%N; 9%N; 160%N]))) = []
  /\ sent (snd (run (Page2.handleUpload (env_ok true) Page2.initial)
                    Page2.initial)) = [].
Proof.
  destruct (degenerate_inputs_send_nothing (env_ok true)) as (H1 & _ & _ & H4).
  split.
  - rewrite H1; reflexivity.
  - rewrite H4; reflexivity.
Defined.

Lemma prefix_or_else (pre text fallback : jsstring) :
  (pre ++ text) `prefix_of` (pre ++ or_else text fallback).
Proof.
  unfold or_else. destruct text as [|c text]; simpl.
  - rewrite app_nil_r. apply prefix_app_r. reflexivity.
  - reflexivity.
Qed.

Lemma error_message_reports (id text fallback : jsstring) :
  reports_error (error_message id (or_else text fallback)) text.
Proof.
  unfold reports_error, error_message. cbn [Message.role Message.content].
  split; [reflexivity|]. split.
  - rewrite !(assoc_L (++)). apply prefix_or_else.
  - intros Hne. unfold or_else. destruct text; [contradiction|reflexivity].
Qed.

Lemma error_message_reports_same (id text : jsstring) :
  reports_error (error_message id text) text.
Proof.
  unfold reports_error, error_message. cbn [Message.role Message.content].
  repeat split; reflexivity.
Qed.

(** C4. When the response to a chat or ingest request is not ok, the helper
    throws an [Error] whose message is the body text.  In [handleSend] every
    such failure is caught: an assistant message that begins with the error
    mark and "Error:" followed by that text is appended, [loading] is false
    afterwards, and the handler completes normally; in fact no call of
    [handleSend] ever completes by throwing.  Both revisions. *)
Theorem failed_requests_throw_and_handleSend_recovers (env : Env) :
  (forall St (h : Heap St) company query top_k res,
     chat_route env
       (expected_chat_request env company query (default (Int 3) top_k))
     = Normal res ->
     ok res = false ->
     fst (chat env company query top_k h) = Throw (new_Error (text res)))
  /\ (forall St (h : Heap St) company file reset res,
        ingest_route env (expected_ingest_request env company file reset)
        = Normal res ->
        ok res = false ->
        fst (ingestCSV env company file reset h) = Throw (new_Error (text res)))
  /\ (forall (props : Page1.State) res,
        trim (Page1.query props) <> [] ->
        chat_route env
          (expected_chat_request env (trim (Page1.company props))
             (trim (Page1.query props)) (Page1.topK props))
        = Normal res ->
        ok res = false ->
        exists reply,
          run (Page1.handleSend env props) props
          = (Normal tt,
             {| ui := {| Page1.company := Page1.company props;
                         Page1.file := Page1.file props;
                         Page1.reset := Page1.reset props;
                         Page1.ingestStatus := Page1.ingestStatus props;
                         Page1.query := [];
                         Page1.topK := Page1.topK props;
                         Page1.loading := false;
                         Page1.messages :=
                           (Page1.messages props
                            ++ [user_message (uuid env 0)
                                  (trim (Page1.query props))])
                           ++ [reply] |};
                sent := [expected_chat_request env (trim (Page1.company props))
                           (trim (Page1.query props)) (Page1.topK props)];
                drawn := 2 |})
          /\ reports_error reply (text res))
  /\ (forall (props : Page2.State) res,
        trim (Page2.query props) <> [] ->
        chat_route env
          (expected_chat_request env (trim (Page2.company props))
             (trim (Page2.query props)) (Page2.topK props))
        = Normal res ->
        ok res = false ->
        exists reply,
          Page2.messages (ui (snd (run (Page2.handleSend env props) props)))
          = (Page2.messages props
             ++ [user_message (uuid env 0) (trim (Page2.query props))])
            ++ [reply]
          /\ Page2.loading (ui (snd (run (Page2.handleSend env props) props)))
             = false
          /\ reports_error reply (text res))
  /\ (forall props : Page1.State,
        fst (run (Page1.handleSend env props) props) = Normal tt)
  /\ (forall props : Page2.State,
        fst (run (Page2.handleSend env props) props) = Normal tt).
Proof.
  split; [|split; [|split; [|split; [|split]]]].
  - intros St h company query top_k res Hres Hok.
    rewrite chat_spec. cbn [fst]. rewrite Hres. simpl. rewrite Hok. reflexivity.
  - intros St h company file reset res Hres Hok.
    rewrite ingestCSV_spec. cbn [fst]. rewrite Hres. simpl. rewrite Hok.
    reflexivity.
  - intros props res Hq Hres Hok.
    rewrite (handleSend1_run env props Hq). cbv zeta. rewrite Hres.
    unfold helper_result. rewrite Hok.
    eexists. split; [reflexivity|]. apply error_message_reports.
  - intros props res Hq Hres Hok.
    rewrite (handleSend2_run env props Hq). cbv zeta. rewrite Hres.
    unfold helper_result. rewrite Hok. cbn [snd ui Page2.messages Page2.loading].
    eexists. split; [reflexivity|]. split; [reflexivity|].
    apply error_message_reports_same.
  - apply handleSend1_returns.
  - apply handleSend2_returns.
Qed.

(** The premises are met by a back end that answers "Internal Server Error"
    with a status that is not ok. *)
Lemma failed_requests_throw_and_handleSend_recovers_witness :
  exists reply,
    Page1.messages
      (ui (snd (run (Page1.handleSend (env_failing (lit "Internal Server Error"))
                       filled1) filled1)))
    = [user_message (lit "uuid-0") (lit "How to log in?"); reply]
    /\ Message.content reply
       = cross_mark ++ lit " Error: Internal Server Error".
Proof.
  destruct (failed_requests_throw_and_handleSend_recovers
              (env_failing (lit "Internal Server Error")))
    as (_ & _ & H & _).
  destruct (H filled1
              {| ok := false; text := lit "Internal Server Error";
                 json_body := Throw (new_Error (lit "Unexpected token")) |})
    as (reply & Hrun & Hrep).
  - vm_compute. discriminate.
  - reflexivity.
  - reflexivity.
  - exists reply. rewrite Hrun. split; [reflexivity|].
    destruct Hrep as (_ & _ & Hc). apply Hc. vm_compute. discriminate.
Defined.

(** * Theorems: the two revisions of the page *)

(** C8, as stated, fails: when an upload fails with an empty error text (a
    response that is not ok and has an empty body), the first revision shows
    the mark followed by "Upload failed", the second the mark alone. *)
Lemma revisions_differ_on_empty_error_text :
  Page1.ingestStatus
    (ui (snd (run (Page1.handleUpload (env_failing []) (view filled2))
                  (view filled2))))
  = Some (cross_mark ++ lit " Upload failed")
  /\ Page2.ingestStatus
       (ui (snd (run (Page2.handleUpload (env_failing []) filled2) filled2)))
     = Some (cross_mark ++ lit " ")
  /\ cross_mark ++ lit " Upload failed" <> cross_mark ++ lit " ".
Proof. repeat split; try reflexivity. vm_compute. discriminate. Qed.

Lemma or_else_nonempty (text fallback : jsstring) :
  text <> [] -> or_else text fallback = text.
Proof. destruct text; [contradiction|reflexivity]. Qed.

(** C8, amended.  From the same inputs both revisions of [handleSend] send
    the same chat request and, on a response, append the assistant message
    whose content is the answer (or "(no answer)" when it is empty) with the
    same citations and hits; both revisions of [handleUpload] send the same
    ingest request; and the states they end in agree (status text included)
    whenever the request does not fail with an empty error message. *)
Theorem revisions_agree_unless_error_text_is_empty
    (env : Env) (props : Page2.State) :
  let send1 := run (Page1.handleSend env (view props)) (view props) in
  let send2 := run (Page2.handleSend env props) props in
  let up1 := run (Page1.handleUpload env (view props)) (view props) in
  let up2 := run (Page2.handleUpload env props) props in
  let chat_answer :=
    helper_result
      (chat_route env
         (expected_chat_request env (trim (Page2.company props))
            (trim (Page2.query props)) (Page2.topK props))) in
  sent (snd send1) = sent (snd send2)
  /\ fst send1 = fst send2
  /\ (forall res,
        trim (Page2.query props) <> [] -> chat_answer = Normal res ->
        Page2.messages (ui (snd send2))
        = (Page2.messages props
           ++ [user_message (uuid env 0) (trim (Page2.query props))])
          ++ [answer_message (uuid env 1) res]
        /\ ui (snd send1) = view (ui (snd send2)))
  /\ (no_empty_error chat_answer -> ui (snd send1) = view (ui (snd send2)))
  /\ sent (snd up1) = sent (snd up2)
  /\ fst up1 = fst up2
  /\ ((forall f, Page2.file props = Some f ->
         no_empty_error
           (helper_result
              (ingest_route env
                 (expected_ingest_request env (trim (Page2.company props)) f
                    (Page2.reset props))))) ->
      ui (snd up1) = view (ui (snd up2))).
Proof.
  cbv zeta.
  assert (Hsend :
    sent (snd (run (Page1.handleSend env (view props)) (view props)))
    = sent (snd (run (Page2.handleSend env props) props))
    /\ (forall res,
          trim (Page2.query props) <> [] ->
          helper_result
            (chat_route env
               (expected_chat_request env (trim (Page2.company props))
                  (trim (Page2.query props)) (Page2.topK props))) = Normal res ->
          Page2.messages (ui (snd (run (Page2.handleSend env props) props)))
          = (Page2.messages props
             ++ [user_message (uuid env 0) (trim (Page2.query props))])
            ++ [answer_message (uuid env 1) res]
          /\ ui (snd (run (Page1.handleSend env (view props)) (view props)))
             = view (ui (snd (run (Page2.handleSend env props) props))))
    /\ (no_empty_error
          (helper_result
             (chat_route env
                (expected_chat_request env (trim (Page2.company props))
                   (trim (Page2.query props)) (Page2.topK props)))) ->
        ui (snd (run (Page1.handleSend env (view props)) (view props)))
        = view (ui (snd (run (Page2.handleSend env props) props))))).
  { destruct (trim (Page2.query props)) as [|x q'] eqn:E.
    - rewrite handleSend1_blank by exact E.
      rewrite handleSend2_blank by exact E.
      split; [reflexivity|]. split; [|reflexivity].
      intros res Hne. contradiction.
    - assert (H1 : trim (Page1.query (view props)) <> [])
        by (unfold view; cbn [Page1.query]; rewrite E; discriminate).
      assert (H2 : trim (Page2.query props) <> [])
        by (rewrite E; discriminate).
      rewrite (handleSend1_run env (view props) H1).
      rewrite (handleSend2_run env props H2).
      unfold view. cbn [snd ui sent Page1.company Page1.query Page1.topK
        Page1.file Page1.reset Page1.ingestStatus Page1.loading Page1.messages
        Page2.company Page2.query Page2.topK Page2.file Page2.reset
        Page2.ingestStatus Page2.loading Page2.messages Page2.sidebarOpen].
      rewrite E.
      split; [reflexivity|]. split.
      + intros res _ Hres. rewrite Hres. split; reflexivity.
      + intros Hne.
        destruct (helper_result _) as [res|e]; [reflexivity|].
        rewrite or_else_nonempty by (apply Hne; reflexivity). reflexivity. }
  destruct Hsend as (Hs1 & Hs2 & Hs3).
  split; [exact Hs1|].
  split; [rewrite handleSend1_returns, handleSend2_returns; reflexivity|].
  split; [exact Hs2|]. split; [exact Hs3|].
  clear Hs1 Hs2 Hs3.
  destruct (Page2.file props) as [f|] eqn:Ef.
  - assert (H1 : Page1.file (view props) = Some f) by exact Ef.
    rewrite (handleUpload1_run env (view props) f H1).
    rewrite (handleUpload2_run env props f Ef).
    unfold view. cbn [snd ui sent fst Page1.company Page1.query Page1.topK
      Page1.file Page1.reset Page1.ingestStatus Page1.loading Page1.messages
      Page2.company Page2.query Page2.topK Page2.file Page2.reset
      Page2.ingestStatus Page2.loading Page2.messages Page2.sidebarOpen].
    split; [reflexivity|]. split; [reflexivity|].
    intros Hne. specialize (Hne f eq_refl).
    destruct (helper_result (ingest_route env _)) as [b|e]; [reflexivity|].
    rewrite or_else_nonempty by (apply Hne; reflexivity). reflexivity.
  - destruct props; simpl in Ef; subst. repeat split; reflexivity.
Qed.

(** The premises are met by an upload and a question that the back end
    answers. *)
Lemma revisions_agree_unless_error_text_is_empty_witness :
  Page2.ingestStatus
    (ui (snd (run (Page2.handleUpload (env_ok true) filled2) filled2)))
  = Page1.ingestStatus
      (ui (snd (run (Page1.handleUpload (env_ok true) (view filled2))
                    (view filled2))))
  /\ Page2.messages
       (ui (snd (run (Page2.handleSend (env_ok true) filled2) filled2)))
     = [user_message (lit "uuid-0") (lit "How to log in?");
        answer_message (lit "uuid-1") sample_chat_body].
Proof.
  pose proof (revisions_agree_unless_error_text_is_empty (env_ok true) filled2)
    as H.
  cbv zeta in H. destruct H as (_ & _ & Hans & _ & _ & _ & Hup).
  split.
  - rewrite Hup; [reflexivity|].
    intros f _ e He. vm_compute in He. discriminate.
  - destruct (Hans sample_chat_body) as [Hm _].
    + vm_compute. discriminate.
    + reflexivity.
    + rewrite Hm. reflexivity.
Defined.

(** * Theorems: the store invariant *)

Section StoreFacts.

Import Core.

Lemma consistent_empty_store : consistent empty_store.
Proof.
  unfold consistent, empty_store. simpl. repeat split.
  intros i c H. rewrite lookup_nil in H. discriminate.
Qed.

Lemma consistent_append (s : Store) (new_chunks : list Chunk) :
  consistent s -> consistent (append s new_chunks).
Proof.
  intros (Hv & Hm & Hpos). unfold consistent, append. simpl.
  rewrite !length_app, !length_map. repeat split; [lia | lia |].
  intros i c Hi.
  destruct (decide (i < length (chunks s))%nat) as [Hlt|Hge].
  - rewrite lookup_app_l in Hi by exact Hlt.
    rewrite lookup_app_l by lia. apply Hpos, Hi.
  - rewrite lookup_app_r in Hi by lia.
    rewrite lookup_app_r by lia. rewrite Hv.
    rewrite list_lookup_fmap, Hi. reflexivity.
Qed.

Lemma registry_consistent_empty : registry_consistent ∅.
Proof.
  intros ns. unfold load. rewrite lookup_empty. apply consistent_empty_store.
Qed.

Lemma registry_consistent_insert (reg : gmap string Store) (ns : string)
    (s : Store) :
  registry_consistent reg -> consistent s ->
  registry_consistent (<[ns := s]> reg).
Proof.
  intros Hreg Hs ns'. unfold load.
  destruct (decide (ns = ns')) as [->|Hne].
  - rewrite lookup_insert_eq. exact Hs.
  - rewrite lookup_insert_ne by exact Hne. apply Hreg.
Qed.

Variable hash : string * string * string -> Key.
Variable embed : list Row -> option (list Vector).

Lemma registry_consistent_ingest (reg : gmap string Store) (ns : string)
    (rows : list Row) (reset_flag : bool) :
  registry_consistent reg ->
  registry_consistent (snd (ingest hash embed reg ns rows reset_flag)).
Proof.
  intros Hreg. unfold ingest.
  destruct (first_malformed 0 rows); [exact Hreg|].
  destruct (embed _) as [vs|]; [|exact Hreg].
  cbn [snd]. apply registry_consistent_insert; [exact Hreg|].
  apply consistent_append.
  destruct reset_flag; [apply consistent_empty_store | apply Hreg].
Qed.

Lemma registry_consistent_mutation (reg : gmap string Store) (m : Mutation) :
  registry_consistent reg ->
  registry_consistent (apply_mutation hash embed reg m).
Proof.
  intros Hreg. destruct m as [ns rows reset_flag | ns]; simpl.
  - apply registry_consistent_ingest, Hreg.
  - apply registry_consistent_insert; [exact Hreg | apply consistent_empty_store].
Qed.

Lemma registry_consistent_mutations (ms : list Mutation) :
  forall reg, registry_consistent reg ->
  registry_consistent (apply_mutations hash embed reg ms).
Proof.
  induction ms as [|m ms IH]; intros reg Hreg; simpl; [exact Hreg|].
  apply IH, registry_consistent_mutation, Hreg.
Qed.

(** C6. Whatever ingestions and resets have been applied, successful or
    not, for every namespace the store holds as many vectors as chunks as
    metadata entries, and the vector at position [i] is the vector of the
    chunk at position [i]. *)
Theorem store_invariant_after_every_mutation
    (ms : list Mutation) (ns : string) :
  let s := load (apply_mutations hash embed ∅ ms) ns in
  length (vectors s) = length (chunks s)
  /\ length (chunks s) = length (metadata s)
  /\ (forall i c, chunks s !! i = Some c ->
                  vectors s !! i = Some (chunk_vector c)).
Proof.
  apply (registry_consistent_mutations ms ∅ registry_consistent_empty ns).
Qed.

End StoreFacts.

(** * Theorems: idempotent ingestion *)

Section IngestFacts.

Import Core.

Variable hash : string * string * string -> Key.
Variable embed : list Row -> option (list Vector).

(** The contract of the embedding capability: one vector per row. *)
Hypothesis embed_length :
  forall rows vs, embed rows = Some vs -> length vs = length rows.

Lemma identity_triple (r r' : Row) :
  triple r' = triple r -> identity hash r' = identity hash r.
Proof.
  unfold triple, identity. intros H. injection H as -> -> ->. reflexivity.
Qed.

(** Rows whose keys are all known leave no survivor. *)
Lemma surviving_known (store_keys batch_keys : gset Key) (rows : list Row) :
  Forall (fun r => identity hash r ∈ store_keys) rows ->
  surviving hash store_keys batch_keys rows = [].
Proof.
  induction 1 as [|r rows Hr _ IH]; simpl; [reflexivity|].
  unfold is_duplicate. rewrite bool_decide_eq_true_2 by exact Hr.
  simpl. exact IH.
Qed.

(** After the dedup pass every key of the batch is in the store, in the
    working set or among the survivors. *)
Lemma surviving_covers (store_keys : gset Key) (rows : list Row) :
  forall batch_keys,
  Forall (fun r => identity hash r ∈
            store_keys ∪ batch_keys
            ∪ list_to_set (map (identity hash)
                             (surviving hash store_keys batch_keys rows)))
         rows.
Proof.
  induction rows as [|r rows IH]; intros batch_keys; [constructor|].
  simpl. unfold is_duplicate.
  destruct (bool_decide (identity hash r ∈ store_keys)) eqn:E1; simpl.
  - constructor; [|apply IH].
    apply bool_decide_eq_true_1 in E1. set_solver.
  - destruct (bool_decide (identity hash r ∈ batch_keys)) eqn:E2; simpl.
    + constructor; [|apply IH].
      apply bool_decide_eq_true_1 in E2. set_solver.
    + constructor; [set_solver|].
      eapply Forall_impl; [apply (IH ({[identity hash r]} ∪ batch_keys))|].
      simpl. intros r' Hr'. set_solver.
Qed.

Lemma zip_make_chunk_keys (rows : list Row) :
  forall vs, length vs = length rows ->
  map chunk_key (zip_with (make_chunk hash) rows vs) = map (identity hash) rows.
Proof.
  induction rows as [|r rows IH]; intros [|v vs] H; simpl in *;
    try discriminate; [reflexivity|].
  f_equal. apply IH. lia.
Qed.

Lemma append_nothing (s : Store) : append s [] = s.
Proof.
  destruct s as [cs vs ms ks]. unfold append. simpl.
  rewrite !app_nil_r. f_equal. set_solver.
Qed.

(** A successful ingestion leaves every key of its batch in the store. *)
Lemma ingest_records_keys (reg reg1 : gmap string Store) (ns : string)
    (rows : list Row) (reset_flag : bool) (n : nat) :
  ingest hash embed reg ns rows reset_flag = (Added n, reg1) ->
  first_malformed 0 rows = None
  /\ exists s1, reg1 !! ns = Some s1
     /\ Forall (fun r => identity hash r ∈ keys s1) rows.
Proof.
  unfold ingest. destruct (first_malformed 0 rows); [discriminate|].
  set (store := if reset_flag then empty_store else load reg ns).
  destruct (embed _) as [vs|] eqn:E; [|discriminate].
  intros H. injection H as _ <-. split; [reflexivity|].
  eexists. split; [apply lookup_insert_eq|].
  unfold append. cbn [keys].
  rewrite (zip_make_chunk_keys _ vs (embed_length _ _ E)).
  eapply Forall_impl; [apply (surviving_covers (keys store) rows ∅)|].
  simpl. intros r Hr. set_solver.
Qed.

(** C5. After a successful ingestion, ingesting rows with the same
    (data_type, title, content) triples again with reset=false, whatever
    their keywords, adds zero records and leaves the registry, hence the
    store and its size, as they were; the call returns the count 0 when the
    rows are well formed and the embedding capability accepts the empty
    batch, and in particular for the very same rows. *)
Theorem ingest_twice_adds_nothing
    (reg reg1 : gmap string Store) (ns : string) (rows rows' : list Row)
    (reset_flag : bool) (n : nat) :
  ingest hash embed reg ns rows reset_flag = (Added n, reg1) ->
  map triple rows' = map triple rows ->
  newly_added (fst (ingest hash embed reg1 ns rows' false)) = 0%nat
  /\ snd (ingest hash embed reg1 ns rows' false) = reg1
  /\ store_size (load (snd (ingest hash embed reg1 ns rows' false)) ns)
     = store_size (load reg1 ns)
  /\ (first_malformed 0 rows' = None -> embed [] <> None ->
      fst (ingest hash embed reg1 ns rows' false) = Added 0)
  /\ (embed [] <> None ->
      fst (ingest hash embed reg1 ns rows false) = Added 0).
Proof.
  intros Hfirst Htriples.
  destruct (ingest_records_keys _ _ _ _ _ _ Hfirst) as (Hwf & s1 & Hs1 & Hkeys).
  assert (Hsame : forall rs, map triple rs = map triple rows ->
            surviving hash (keys (load reg1 ns)) ∅ rs = []).
  { intros rs Hrs. apply surviving_known.
    unfold load. rewrite Hs1. simpl.
    apply Forall_forall. intros r' Hin.
    apply list_elem_of_lookup in Hin as [i Hi].
    assert (Ht : map triple rs !! i = Some (triple r'))
      by (rewrite list_lookup_fmap, Hi; reflexivity).
    rewrite Hrs, list_lookup_fmap in Ht.
    destruct (rows !! i) as [r|] eqn:Hr; [|discriminate].
    simpl in Ht. assert (Ht' : triple r' = triple r) by congruence.
    rewrite (identity_triple r r' Ht').
    rewrite Forall_forall in Hkeys. apply Hkeys.
    apply list_elem_of_lookup. exists i. exact Hr. }
  assert (Hrun : forall rs, map triple rs = map triple rows ->
            newly_added (fst (ingest hash embed reg1 ns rs false)) = 0%nat
            /\ snd (ingest hash embed reg1 ns rs false) = reg1
            /\ (first_malformed 0 rs = None -> embed [] <> None ->
                fst (ingest hash embed reg1 ns rs false) = Added 0)).
  { intros rs Hrs. unfold ingest.
    destruct (first_malformed 0 rs); [repeat split; discriminate|].
    rewrite (Hsame rs Hrs).
    destruct (embed []) as [vs|] eqn:E.
    - apply embed_length in E. destruct vs; [|discriminate].
      simpl. rewrite append_nothing.
      repeat split. apply insert_id. unfold load. rewrite Hs1. reflexivity.
    - simpl. repeat split. intros _ Hne. contradiction. }
  destruct (Hrun rows' Htriples) as (Hn & Hreg & Hret).
  destruct (Hrun rows eq_refl) as (_ & _ & Hret0).
  split; [exact Hn|]. split; [exact Hreg|]. split; [rewrite Hreg; reflexivity|].
  split; [exact Hret|]. intros Hne. apply Hret0; [exact Hwf | exact Hne].
Qed.

End IngestFacts.

(** The premises are met by the example of the specification: the row is
    ingested with reset, then again without, under other keywords. *)
Lemma ingest_twice_adds_nothing_witness :
  fst (Core.ingest sample_hash sample_embed
         (snd (Core.ingest sample_hash sample_embed ∅ "myco"
                 [login_row "login,password"] true))
         "myco" [login_row "other"] false)
  = Core.Added 0.
Proof.
  refine (proj1 (proj2 (proj2 (proj2
    (ingest_twice_adds_nothing sample_hash sample_embed _ ∅
       (snd (Core.ingest sample_hash sample_embed ∅ "myco"
               [login_row "login,password"] true))
       "myco" [login_row "login,password"] [login_row "other"] true 1
       _ _)))) _ _).
  - intros rows vs H. injection H as <-. apply length_map.
  - reflexivity.
  - reflexivity.
  - reflexivity.
  - discriminate.
Defined.

(** * Theorems: MMR with weight 1 *)

Section MMRFacts.

Import Retriever.

Local Open Scope Q_scope.

(** With weight 1 the MMR score is the relevance. *)
Lemma mmr_score_weight_1 (lambda : Q) (selected : list Candidate)
    (c : Candidate) :
  lambda == 1 -> mmr_score lambda selected c == relevance c.
Proof. intros H. unfold mmr_score. rewrite H. ring. Qed.

Lemma preferred_weight_1 (lambda : Q) (selected : list Candidate)
    (a b : Candidate) :
  lambda == 1 -> preferred lambda selected a b = by_relevance a b.
Proof.
  intros H. unfold preferred, by_relevance.
  rewrite (Qcompare_comp _ _ (mmr_score_weight_1 lambda selected a H)
                         _ _ (mmr_score_weight_1 lambda selected b H)).
  destruct (relevance a ?= relevance b); reflexivity.
Qed.

(** [pick] depends on the preference only through its values. *)
Lemma pick_ext (p q : Candidate -> Candidate -> bool) (pool : list Candidate) :
  (forall a b, p a b = q a b) -> pick p pool = pick q pool.
Proof.
  intros H. induction pool as [|c pool IH]; simpl; [reflexivity|].
  rewrite IH. destruct (pick q pool) as [[b rest]|]; [|reflexivity].
  rewrite H. reflexivity.
Qed.

Lemma pick_nil_iff (p : Candidate -> Candidate -> bool) (pool : list Candidate) :
  pick p pool = None <-> pool = [].
Proof.
  split; [|intros ->; reflexivity].
  destruct pool as [|c pool]; [reflexivity|]. simpl.
  destruct (pick p pool) as [[b rest]|]; [|discriminate].
  destruct (p b c); discriminate.
Qed.

(** The pick by relevance is the head of the ranking, and what is left
    ranks as the tail. *)
Lemma pick_by_relevance_heads_ranking (pool : list Candidate) :
  forall c rest,
  pick by_relevance pool = Some (c, rest) ->
  rank_by_similarity pool = c :: rank_by_similarity rest.
Proof.
  induction pool as [|d pool IH]; intros c rest; simpl; [discriminate|].
  destruct (pick by_relevance pool) as [[b rest']|] eqn:E.
  - rewrite (IH b rest' eq_refl). simpl.
    destruct (by_relevance b d) eqn:Hbd; intros H; injection H as <- <-.
    + reflexivity.
    + simpl. rewrite (IH b rest' eq_refl). reflexivity.
  - apply pick_nil_iff in E. subst pool.
    intros H. injection H as <- <-. reflexivity.
Qed.

Lemma mmr_loop_weight_1 (lambda : Q) (top_k : nat) :
  lambda == 1 ->
  forall selected remaining,
  mmr_loop lambda top_k selected remaining
  = selected ++ take top_k (rank_by_similarity remaining).
Proof.
  intros H. induction top_k as [|k IH]; intros selected remaining; simpl.
  - rewrite take_0, app_nil_r. reflexivity.
  - rewrite (pick_ext _ by_relevance remaining
               (fun a b => preferred_weight_1 lambda selected a b H)).
    destruct (pick by_relevance remaining) as [[c rest]|] eqn:E.
    + rewrite IH. rewrite (pick_by_relevance_heads_ranking _ _ _ E).
      simpl. rewrite <- app_assoc. reflexivity.
    + apply pick_nil_iff in E. subst remaining. simpl.
      rewrite app_nil_r. reflexivity.
Qed.

(** Comparison results of rationals, read as order facts. *)
Ltac qcompare_facts :=
  repeat match goal with
  | H : (_ ?= _) = Eq |- _ => apply Qeq_alt in H
  | H : (_ ?= _) = Lt |- _ => apply Qlt_alt in H
  | H : (_ ?= _) = Gt |- _ => apply Qgt_alt in H
  end.

Lemma preferred_irreflexive (lambda : Q) (selected : list Candidate)
    (a : Candidate) :
  preferred lambda selected a a = false.
Proof.
  unfold preferred, by_relevance.
  destruct (mmr_score lambda selected a ?= mmr_score lambda selected a) eqn:E1;
  destruct (relevance a ?= relevance a) eqn:E2;
    qcompare_facts; try reflexivity; try lra.
  apply Nat.ltb_irrefl.
Qed.

(** If [d] is not preferred to [b] nor [b] to [c], then [d] is not
    preferred to [c]. *)
Lemma preferred_negatively_transitive (lambda : Q) (selected : list Candidate)
    (d b c : Candidate) :
  preferred lambda selected d b = false ->
  preferred lambda selected b c = false ->
  preferred lambda selected d c = false.
Proof.
  unfold preferred, by_relevance.
  destruct (mmr_score lambda selected d ?= mmr_score lambda selected b) eqn:E1;
  destruct (mmr_score lambda selected b ?= mmr_score lambda selected c) eqn:E2;
  destruct (mmr_score lambda selected d ?= mmr_score lambda selected c) eqn:E3;
  destruct (relevance d ?= relevance b) eqn:E4;
  destruct (relevance b ?= relevance c) eqn:E5;
  destruct (relevance d ?= relevance c) eqn:E6;
    qcompare_facts; intros H1 H2; try reflexivity; try discriminate; try lra.
  apply Nat.ltb_ge in H1, H2. apply Nat.ltb_ge. lia.
Qed.

(** The pick of a round is a best candidate: it comes from the pool, the
    rest is the pool without it, and no candidate of the pool is preferred
    to it. *)
Lemma pick_is_best (lambda : Q) (selected pool : list Candidate) :
  forall c rest,
  pick (preferred lambda selected) pool = Some (c, rest) ->
  pool ≡ₚ c :: rest
  /\ Forall (fun d => preferred lambda selected d c = false) pool.
Proof.
  induction pool as [|x pool IH]; intros c rest; simpl; [discriminate|].
  destruct (pick (preferred lambda selected) pool) as [[b rest']|] eqn:E.
  - destruct (IH b rest' eq_refl) as [Hperm Hbest].
    destruct (preferred lambda selected b x) eqn:Hbx;
      intros H; injection H as <- <-.
    + split; [rewrite Hperm; apply Permutation_swap|].
      constructor; [|exact Hbest].
      destruct (preferred lambda selected x b) eqn:Hxb; [|reflexivity].
      exfalso. revert Hbx Hxb. unfold preferred, by_relevance.
      destruct (mmr_score lambda selected b ?= mmr_score lambda selected x) eqn:E1;
      destruct (mmr_score lambda selected x ?= mmr_score lambda selected b) eqn:E2;
      destruct (relevance b ?= relevance x) eqn:E3;
      destruct (relevance x ?= relevance b) eqn:E4;
        qcompare_facts; intros H1 H2; try discriminate; try lra.
      apply Nat.ltb_lt in H1, H2. lia.
    + split; [reflexivity|].
      constructor; [apply preferred_irreflexive|].
      eapply Forall_impl; [exact Hbest|]. simpl. intros d Hd.
      exact (preferred_negatively_transitive lambda selected d b x Hd Hbx).
  - apply pick_nil_iff in E. subst pool.
    intros H. injection H as <- <-. split; [reflexivity|].
    constructor; [apply preferred_irreflexive | constructor].
Qed.

(** C7. For every candidate pool and every [top_k], MMR selection with weight
    1 returns the same list, in the same order, as plain similarity-ranked
    top-k selection. *)
Theorem mmr_weight_1_is_plain_top_k (pool : list Candidate) (top_k : nat) :
  mmr 1 pool top_k = plain_top_k pool top_k.
Proof.
  unfold mmr, plain_top_k.
  rewrite (mmr_loop_weight_1 1 top_k (Qeq_refl 1)). reflexivity.
Qed.

(** With a weight below 1 the diversity term does matter: at weight 1/2 the
    near-duplicate of the first pick is passed over. *)
Example mmr_weight_half_diversifies :
  map position (mmr (1 # 2) sample_pool 2) = [0%nat; 2%nat]
  /\ map position (mmr 1 sample_pool 2) = [0%nat; 1%nat]
  /\ map position (plain_top_k sample_pool 2) = [0%nat; 1%nat].
Proof. repeat split; reflexivity. Qed.

End MMRFacts.

(** * Further properties of the page

    ** What [trim] removes *)

Lemma whitespace_only_app (a b : jsstring) :
  whitespace_only (a ++ b) = whitespace_only a && whitespace_only b.
Proof. unfold whitespace_only. apply forallb_app. Qed.

Lemma whitespace_only_rev (s : jsstring) :
  whitespace_only (rev s) = whitespace_only s.
Proof.
  induction s as [|c s IH]; [reflexivity|].
  simpl rev. rewrite whitespace_only_app, IH. simpl.
  rewrite andb_true_r. apply andb_comm.
Qed.

(** [trimStart] cuts a prefix of white space and stops at the first code
    unit that is not white space. *)
Lemma trimStart_split (s : jsstring) :
  exists k, s = k ++ trimStart s /\ whitespace_only k = true.
Proof.
  induction s as [|c s (k & Hk & Hw)]; [exists []; split; reflexivity|].
  simpl. destruct (is_white_space c) eqn:Hc.
  - exists (c :: k). split; [simpl; f_equal; exact Hk|].
    simpl. rewrite Hc. exact Hw.
  - exists []. split; reflexivity.
Qed.

Lemma trimStart_head (s : jsstring) (c : code_unit) :
  head (trimStart s) = Some c -> is_white_space c = false.
Proof.
  induction s as [|d s IH]; simpl; [discriminate|].
  destruct (is_white_space d) eqn:Hd; [exact IH|].
  simpl. intros H. injection H as <-. exact Hd.
Qed.

Lemma trimStart_nil_iff (s : jsstring) :
  trimStart s = [] <-> whitespace_only s = true.
Proof.
  split; [|apply trimStart_whitespace_only].
  induction s as [|c s IH]; simpl; [reflexivity|].
  destruct (is_white_space c); [exact IH | discriminate].
Qed.

(** [trim] splits its argument into white space, the result, white space. *)
Lemma trim_split (s : jsstring) :
  exists k1 k2, s = k1 ++ trim s ++ k2
    /\ whitespace_only k1 = true /\ whitespace_only k2 = true.
Proof.
  destruct (trimStart_split s) as (k1 & H1 & W1).
  destruct (trimStart_split (rev (trimStart s))) as (k2 & H2 & W2).
  exists k1, (rev k2). split; [|split; [exact W1|]].
  - unfold trim, trimEnd. rewrite <- rev_app_distr, <- H2, rev_involutive.
    exact H1.
  - rewrite whitespace_only_rev. exact W2.
Qed.

Lemma trim_nil_iff (s : jsstring) :
  trim s = [] <-> whitespace_only s = true.
Proof.
  split; [|apply trim_whitespace_only].
  intros H. destruct (trim_split s) as (k1 & k2 & Hs & W1 & W2).
  rewrite H in Hs. rewrite Hs, whitespace_only_app, W1. exact W2.
Qed.

Lemma last_rev_head {A} (l : list A) : last (rev l) = head l.
Proof.
  destruct l as [|x l]; [reflexivity|]. simpl. apply last_snoc.
Qed.

(** What [trim] returns is empty or starts and ends with a code unit that
    is not white space. *)
Lemma trim_trimmed (s : jsstring) : trim s <> [] -> trimmed (trim s).
Proof.
  intros Hne. split.
  - destruct (trim s) as [|c r] eqn:E; [contradiction|].
    exists c. split; [reflexivity|].
    destruct (trimStart_split (rev (trimStart s))) as (k2 & H2 & _).
    assert (Ht : trimStart s = (c :: r) ++ rev k2).
    { rewrite <- E. unfold trim, trimEnd.
      rewrite <- rev_app_distr, <- H2, rev_involutive. reflexivity. }
    apply (trimStart_head s). rewrite Ht. reflexivity.
  - unfold trim, trimEnd in *. rewrite last_rev_head.
    destruct (trimStart (rev (trimStart s))) as [|c r] eqn:E;
      [contradiction Hne; reflexivity|].
    exists c. split; [reflexivity|].
    apply (trimStart_head (rev (trimStart s))). rewrite E. reflexivity.
Qed.

(** X2. [handleSend] sends a request exactly when the query holds more than
    white space, and the query the request carries is the typed one with
    the white space at both ends cut off: it starts and ends with a code
    unit that is not white space.  The company is trimmed the same way and
    [topK] is passed on as stored.  Both revisions. *)
Theorem handleSend_sends_the_trimmed_query (env : Env) :
  (forall props : Page1.State,
     let out := run (Page1.handleSend env props) props in
     (whitespace_only (Page1.query props) = true /\ sent (snd out) = [])
     \/ (exists k1 q k2,
           Page1.query props = k1 ++ q ++ k2
           /\ whitespace_only k1 = true /\ whitespace_only k2 = true
           /\ trimmed q
           /\ sent (snd out)
              = [expected_chat_request env (trim (Page1.company props)) q
                   (Page1.topK props)]))
  /\ (forall props : Page2.State,
        let out := run (Page2.handleSend env props) props in
        (whitespace_only (Page2.query props) = true /\ sent (snd out) = [])
        \/ (exists k1 q k2,
              Page2.query props = k1 ++ q ++ k2
              /\ whitespace_only k1 = true /\ whitespace_only k2 = true
              /\ trimmed q
              /\ sent (snd out)
                 = [expected_chat_request env (trim (Page2.company props)) q
                      (Page2.topK props)])).
Proof.
  split; intros props; cbv zeta.
  - destruct (trim (Page1.query props)) as [|c r] eqn:E.
    + left. split; [apply trim_nil_iff, E|].
      rewrite handleSend1_blank by exact E. reflexivity.
    + right. destruct (trim_split (Page1.query props)) as (k1 & k2 & Hs & W1 & W2).
      exists k1, (trim (Page1.query props)), k2.
      split; [exact Hs|]. split; [exact W1|]. split; [exact W2|].
      split; [apply trim_trimmed; rewrite E; discriminate|].
      rewrite handleSend1_run by (rewrite E; discriminate). reflexivity.
  - destruct (trim (Page2.query props)) as [|c r] eqn:E.
    + left. split; [apply trim_nil_iff, E|].
      rewrite handleSend2_blank by exact E. reflexivity.
    + right. destruct (trim_split (Page2.query props)) as (k1 & k2 & Hs & W1 & W2).
      exists k1, (trim (Page2.query props)), k2.
      split; [exact Hs|]. split; [exact W1|]. split; [exact W2|].
      split; [apply trim_trimmed; rewrite E; discriminate|].
      rewrite handleSend2_run by (rewrite E; discriminate). reflexivity.
Qed.

(** ** The top-k box reads back every integer *)

Lemma lit_String (c : ascii) (s : string) :
  lit (String c s) = N_of_ascii c :: lit s.
Proof. reflexivity. Qed.

Lemma digits_prefix_digit (acc : option Z) (c : code_unit) (s : jsstring) :
  is_digit c = true ->
  digits_prefix acc (c :: s)
  = digits_prefix (Some (10 * default 0 acc + digit_value c)) s.
Proof. intros H. simpl. rewrite H. reflexivity. Qed.

Lemma digits_prefix_acc (d : Decimal.uint) :
  forall a : positive,
  digits_prefix (Some (Z.pos a)) (lit (NilEmpty.string_of_uint d))
  = Some (Z.pos (Pos.of_uint_acc d a)).
Proof.
  induction d; intros a; [reflexivity|..];
    cbn [NilEmpty.string_of_uint Pos.of_uint_acc];
    rewrite lit_String, digits_prefix_digit by reflexivity;
    rewrite <- IHd; do 2 f_equal;
    change (default 0 (Some (Z.pos a))) with (Z.pos a);
    vm_compute digit_value; lia.
Qed.

Lemma digits_prefix_numeral (d : Decimal.uint) :
  d <> Decimal.Nil ->
  digits_prefix None (lit (NilEmpty.string_of_uint d))
  = Some (Z.of_N (Pos.of_uint d)).
Proof.
  assert (Hzero : forall d',
    digits_prefix (Some 0) (lit (NilEmpty.string_of_uint d'))
    = Some (Z.of_N (Pos.of_uint d'))).
  { induction d' as [|d' IH|d' _|d' _|d' _|d' _|d' _|d' _|d' _|d' _|d' _];
      [reflexivity|..];
      cbn [NilEmpty.string_of_uint Pos.of_uint];
      rewrite lit_String, digits_prefix_digit by reflexivity.
    - exact IH.
    - apply (digits_prefix_acc d' 1).
    - apply (digits_prefix_acc d' 2).
    - apply (digits_prefix_acc d' 3).
    - apply (digits_prefix_acc d' 4).
    - apply (digits_prefix_acc d' 5).
    - apply (digits_prefix_acc d' 6).
    - apply (digits_prefix_acc d' 7).
    - apply (digits_prefix_acc d' 8).
    - apply (digits_prefix_acc d' 9). }
  intros Hne. rewrite <- Hzero.
  destruct d; [contradiction|..];
    cbn [NilEmpty.string_of_uint];
    rewrite lit_String, !digits_prefix_digit by reflexivity; reflexivity.
Qed.

(** A numeral starts with a digit: no white space to skip, no sign. *)
Lemma numeral_starts_with_digit (d : Decimal.uint) :
  d <> Decimal.Nil ->
  exists c r, lit (NilEmpty.string_of_uint d) = c :: r /\ is_digit c = true.
Proof.
  intros Hne. destruct d; [contradiction|..];
    cbn [NilEmpty.string_of_uint]; rewrite lit_String;
    eexists _, _; split; reflexivity.
Qed.

Lemma digit_is_plain (c : code_unit) :
  is_digit c = true ->
  is_white_space c = false /\ (c =? 45)%N = false /\ (c =? 43)%N = false.
Proof.
  unfold is_digit, is_white_space. intros H.
  apply andb_true_iff in H as [H1 H2].
  apply N.leb_le in H1. apply N.leb_le in H2.
  repeat split;
    repeat match goal with
    | |- (_ || _)%bool = false => apply orb_false_iff; split
    | |- (_ && _)%bool = false => apply andb_false_iff
    | |- (_ =? _)%N = false => apply N.eqb_neq; lia
    end.
  left. apply N.leb_gt. lia.
Qed.

Lemma parseInt10_numeral (d : Decimal.uint) :
  d <> Decimal.Nil ->
  parseInt10 (lit (NilEmpty.string_of_uint d)) = Int (Z.of_N (Pos.of_uint d)).
Proof.
  intros Hne. unfold parseInt10.
  pose proof (digits_prefix_numeral d Hne) as Hd.
  destruct (numeral_starts_with_digit d Hne) as (c & r & E & Hc).
  rewrite E in *. destruct (digit_is_plain c Hc) as (Hw & Hm & Hp).
  cbn [trimStart]. rewrite Hw, Hm, Hp, Hd. f_equal. lia.
Qed.

Lemma to_uint_not_Nil (p : positive) : Pos.to_uint p <> Decimal.Nil.
Proof.
  intros H. pose proof (DecimalPos.Unsigned.of_to p) as E.
  rewrite H in E. discriminate.
Qed.

Lemma parseInt10_minus (s : jsstring) :
  parseInt10 (45%N :: s)
  = match digits_prefix None s with
    | None => NaN
    | Some n => Int (-1 * n)
    end.
Proof. reflexivity. Qed.

(** [parseInt(String(n), 10)] is [n], for every integer. *)
Lemma parseInt10_String_number (z : Z) :
  parseInt10 (String_number (Int z)) = Int z.
Proof.
  unfold String_number. destruct z as [|p|p]; [reflexivity|..].
  - cbn [Z.to_int NilZero.string_of_int].
    pose proof (to_uint_not_Nil p) as Hne.
    assert (E : NilZero.string_of_uint (Pos.to_uint p)
                = NilEmpty.string_of_uint (Pos.to_uint p))
      by (destruct (Pos.to_uint p); [contradiction|reflexivity..]).
    rewrite E, parseInt10_numeral by exact Hne.
    rewrite DecimalPos.Unsigned.of_to. reflexivity.
  - cbn [Z.to_int NilZero.string_of_int].
    pose proof (to_uint_not_Nil p) as Hne.
    assert (E : NilZero.string_of_uint (Pos.to_uint p)
                = NilEmpty.string_of_uint (Pos.to_uint p))
      by (destruct (Pos.to_uint p); [contradiction|reflexivity..]).
    rewrite E, lit_String.
    change (N_of_ascii "-") with 45%N. rewrite parseInt10_minus.
    rewrite digits_prefix_numeral by exact Hne.
    rewrite DecimalPos.Unsigned.of_to. reflexivity.
Qed.

Lemma String_number_not_empty (z : Z) : String_number (Int z) <> [].
Proof.
  intros H. pose proof (parseInt10_String_number z) as E.
  rewrite H in E. discriminate.
Qed.

Lemma typed1_state (value question : jsstring) :
  typed1 value question
  = {| Page1.company := lit "instagram"; Page1.file := None;
       Page1.reset := true; Page1.ingestStatus := None;
       Page1.query := question;
       Page1.topK := parseInt10 (or_else value (lit "3"));
       Page1.loading := false; Page1.messages := [] |}.
Proof. reflexivity. Qed.

Lemma typed2_state (value question : jsstring) :
  typed2 value question
  = {| Page2.company := lit "instagram"; Page2.file := None;
       Page2.reset := true; Page2.ingestStatus := None;
       Page2.query := question;
       Page2.topK := parseInt10 (or_else value (lit "3"));
       Page2.loading := false; Page2.messages := [];
       Page2.sidebarOpen := false |}.
Proof. reflexivity. Qed.

(** X1. Whatever integer the user types into the top-k box, in the decimal
    form [String(n)] gives it and within the range in which a JavaScript
    number is an exact integer, the box stores that integer and the next
    chat request carries it as [top_k]: nothing is clamped to the declared
    range and nothing is lost.  An emptied box stores 3.  Both revisions. *)
Theorem topK_box_reads_back_every_integer
    (env : Env) (z : Z) (question : jsstring) :
  Z.abs z <= 2 ^ 53 ->
  not_blank question = true ->
  Page1.topK (typed1 (String_number (Int z)) question) = Int z
  /\ map body_top_k
       (sent (snd (run (Page1.handleSend env
                          (typed1 (String_number (Int z)) question))
                       (typed1 (String_number (Int z)) question))))
     = [Some (JNumber (inject_Z z))]
  /\ Page2.topK (typed2 (String_number (Int z)) question) = Int z
  /\ map body_top_k
       (sent (snd (run (Page2.handleSend env
                          (typed2 (String_number (Int z)) question))
                       (typed2 (String_number (Int z)) question))))
     = [Some (JNumber (inject_Z z))]
  /\ Page1.topK (typed1 [] question) = Int 3
  /\ Page2.topK (typed2 [] question) = Int 3.
Proof.
  intros _ Hq. unfold not_blank in Hq.
  assert (Hne : trim question <> [])
    by (destruct (trim question); [discriminate Hq | discriminate]).
  rewrite !typed1_state, !typed2_state.
  rewrite (or_else_nonempty _ _ (String_number_not_empty z)).
  rewrite parseInt10_String_number.
  split; [reflexivity|]. split.
  - rewrite handleSend1_run by exact Hne. reflexivity.
  - split; [reflexivity|]. split.
    + rewrite handleSend2_run by exact Hne. reflexivity.
    + split; reflexivity.
Qed.

(** The premise is met, with a number far above the declared maximum. *)
Lemma topK_box_reads_back_every_integer_witness :
  Page1.topK (typed1 (lit "1000") (lit "hi")) = Int 1000
  /\ Page2.topK (typed2 (lit "-4") (lit "hi")) = Int (-4).
Proof.
  split.
  - refine (proj1 (topK_box_reads_back_every_integer
                     (env_ok true) 1000 (lit "hi") _ eq_refl)).
    vm_compute. discriminate.
  - refine (proj1 (proj2 (proj2 (topK_box_reads_back_every_integer
                     (env_ok true) (-4) (lit "hi") _ eq_refl)))).
    vm_compute. discriminate.
Defined.

(** ** Conversations *)

(** [handleSend] on any heap: the handler reads the query, the company and
    [topK] of its render and updates the current state. *)
Lemma handleSend1_at (env : Env) (props : Page1.State) (h : Heap Page1.State) :
  trim (Page1.query props) <> [] ->
  let q := trim (Page1.query props) in
  let req := expected_chat_request env (trim (Page1.company props)) q
               (Page1.topK props) in
  let reply :=
    match helper_result (chat_route env req) with
    | Normal res => answer_message (uuid env (S (drawn h))) res
    | Throw e => error_message (uuid env (S (drawn h)))
                   (or_else (message e) (lit "request failed"))
    end in
  Page1.handleSend env props h
  = (Normal tt,
     {| ui := {| Page1.company := Page1.company (ui h);
                 Page1.file := Page1.file (ui h);
                 Page1.reset := Page1.reset (ui h);
                 Page1.ingestStatus := Page1.ingestStatus (ui h);
                 Page1.query := [];
                 Page1.topK := Page1.topK (ui h);
                 Page1.loading := false;
                 Page1.messages :=
                   (Page1.messages (ui h)
                    ++ [user_message (uuid env (drawn h)) q])
                   ++ [reply] |};
        sent := sent h ++ [req];
        drawn := S (S (drawn h)) |}).
Proof.
  destruct props as [c f r st qy k ld ms].
  destruct h as [[c' f' r' st' qy' k' ld' ms'] snt dr].
  simpl. intros Hq. cbv zeta.
  unfold Page1.handleSend. simpl.
  destruct (trim qy) as [|x q'] eqn:E; [contradiction|].
  unfold Page1.setMessages, Page1.setQuery, Page1.setLoading.
  task_unfold. simpl. rewrite chat_spec. simpl.
  destruct (helper_result _) as [res|e]; simpl; [|reflexivity].
  unfold answer_message, or_else. destruct (ChatResponse.answer res); reflexivity.
Qed.

Lemma handleSend2_at (env : Env) (props : Page2.State) (h : Heap Page2.State) :
  trim (Page2.query props) <> [] ->
  let q := trim (Page2.query props) in
  let req := expected_chat_request env (trim (Page2.company props)) q
               (Page2.topK props) in
  let reply :=
    match helper_result (chat_route env req) with
    | Normal res => answer_message (uuid env (S (drawn h))) res
    | Throw e => error_message (uuid env (S (drawn h))) (message e)
    end in
  Page2.handleSend env props h
  = (Normal tt,
     {| ui := {| Page2.company := Page2.company (ui h);
                 Page2.file := Page2.file (ui h);
                 Page2.reset := Page2.reset (ui h);
                 Page2.ingestStatus := Page2.ingestStatus (ui h);
                 Page2.query := [];
                 Page2.topK := Page2.topK (ui h);
                 Page2.loading := false;
                 Page2.messages :=
                   (Page2.messages (ui h)
                    ++ [user_message (uuid env (drawn h)) q])
                   ++ [reply];
                 Page2.sidebarOpen := Page2.sidebarOpen (ui h) |};
        sent := sent h ++ [req];
        drawn := S (S (drawn h)) |}).
Proof.
  destruct props as [c f r st qy k ld ms sb].
  destruct h as [[c' f' r' st' qy' k' ld' ms' sb'] snt dr].
  simpl. intros Hq. cbv zeta.
  unfold Page2.handleSend. simpl.
  destruct (trim qy) as [|x q'] eqn:E; [contradiction|].
  unfold Page2.setMessages, Page2.setQuery, Page2.setLoading.
  task_unfold. simpl. rewrite chat_spec. simpl.
  destruct (helper_result _) as [res|e]; simpl; [|reflexivity].
  unfold answer_message, or_else. destruct (ChatResponse.answer res); reflexivity.
Qed.

Lemma handleSend1_blank_at (env : Env) (props : Page1.State)
    (h : Heap Page1.State) :
  trim (Page1.query props) = [] -> Page1.handleSend env props h = (Normal tt, h).
Proof. intros H. unfold Page1.handleSend. rewrite H. reflexivity. Qed.

Lemma handleSend2_blank_at (env : Env) (props : Page2.State)
    (h : Heap Page2.State) :
  trim (Page2.query props) = [] -> Page2.handleSend env props h = (Normal tt, h).
Proof. intros H. unfold Page2.handleSend. rewrite H. reflexivity. Qed.

Lemma questions_of_app (a b : list Message.t) :
  questions_of (a ++ b) = questions_of a ++ questions_of b.
Proof.
  induction a as [|m a IH]; [reflexivity|]. simpl.
  destruct (Message.role m); simpl; rewrite IH; reflexivity.
Qed.

Lemma ask1_at (env : Env) (q : jsstring) (h : Heap Page1.State) :
  Page1.disabledChat (ui h) = false ->
  ask1 env q h = Page1.handleSend env (ui (typing1 q h)) (typing1 q h).
Proof.
  intros Hd. unfold ask1, dispatch. task_unfold.
  change (Page1.onChange_query q h) with (Normal tt, typing1 q h).
  cbv iota beta. unfold Page1.onClick_send.
  replace (Page1.disabledChat (ui (typing1 q h))) with false
    by (rewrite <- Hd; destruct h as [[] ? ?]; reflexivity).
  reflexivity.
Qed.

Lemma ask2_at (env : Env) (q : jsstring) (h : Heap Page2.State) :
  Page2.disabledChat (ui h) = false ->
  ask2 env q h = Page2.handleSend env (ui (typing2 q h)) (typing2 q h).
Proof.
  intros Hd. unfold ask2, dispatch. task_unfold.
  change (Page2.onChange_query q h) with (Normal tt, typing2 q h).
  cbv iota beta. unfold Page2.onClick_send.
  replace (Page2.disabledChat (ui (typing2 q h))) with false
    by (rewrite <- Hd; destruct h as [[] ? ?]; reflexivity).
  reflexivity.
Qed.

Lemma conversation1_at (env : Env) (questions : list jsstring) :
  forall h : Heap Page1.State,
  Page1.disabledChat (ui h) = false ->
  exists h',
    conversation1 env questions h = (Normal tt, h')
    /\ conversation_result env questions (Page1.company (ui h))
         (Page1.topK (ui h)) (sent h) (sent h')
         (Page1.messages (ui h)) (Page1.messages (ui h'))
    /\ Page1.company (ui h') = Page1.company (ui h)
    /\ Page1.topK (ui h') = Page1.topK (ui h)
    /\ Page1.file (ui h') = Page1.file (ui h)
    /\ Page1.reset (ui h') = Page1.reset (ui h)
    /\ Page1.ingestStatus (ui h') = Page1.ingestStatus (ui h)
    /\ Page1.loading (ui h') = false.
Proof.
  induction questions as [|q rest IH]; intros h Hd.
  - exists h. split; [reflexivity|]. split.
    + split; [simpl; rewrite app_nil_r; reflexivity|].
      exists []. simpl. rewrite app_nil_r. repeat split.
    + repeat split.
      unfold Page1.disabledChat in Hd. apply orb_false_iff in Hd as [Hl _].
      exact Hl.
  - cbn [conversation1]. unfold mbind, Task_bind.
    rewrite (ask1_at env q h Hd).
    destruct (trim q) as [|x q'] eqn:E.
    + rewrite handleSend1_blank_at
        by (destruct h as [[] ? ?]; exact E).
      destruct (IH (typing1 q h)) as (h' & Hrun & Hres & Hrest);
        [rewrite <- Hd; destruct h as [[] ? ?]; reflexivity|].
      exists h'. split; [exact Hrun|].
      destruct h as [[c f r st qy k ld ms] snt dr].
      unfold conversation_result in *. cbn [asked]. unfold not_blank.
      rewrite E. cbn [truthy]. split; [exact Hres|exact Hrest].
    + assert (Hne : trim (Page1.query (ui (typing1 q h))) <> [])
        by (destruct h as [[] ? ?]; change (trim q <> []); rewrite E;
            discriminate).
      rewrite (handleSend1_at env _ _ Hne). cbv beta iota zeta.
      match goal with
      | |- context [conversation1 env rest ?h1] =>
          destruct (IH h1) as (h' & Hrun & Hres & Hc & Hk & Hf & Hr & Hs & Hl)
      end.
      { destruct h as [[c f r st qy k ld ms] snt dr].
        unfold Page1.disabledChat in *. cbn in *.
        apply orb_false_iff in Hd as [_ Hd]. exact Hd. }
      exists h'. split; [exact Hrun|].
      destruct h as [[c f r st qy k ld ms] snt dr].
      cbn [ui sent drawn typing1 snd Page1.onChange_query Page1.setQuery
           modify Page1.company Page1.topK Page1.messages Page1.query
           Page1.file Page1.reset Page1.ingestStatus Page1.loading] in *.
      split; [|repeat split; assumption].
      destruct Hres as (Hsent & new & Hm & Hroles & Hqs).
      unfold conversation_result. cbn [asked]. unfold not_blank.
      rewrite E. cbn [truthy length map turns]. split.
      * rewrite Hsent, <- app_assoc. reflexivity.
      * eexists (_ :: _ :: new). split; [|split].
        -- rewrite Hm, <- !app_assoc. reflexivity.
        -- cbn [map]. rewrite Hroles. f_equal.
           destruct (helper_result _); reflexivity.
        -- cbn [questions_of user_message Message.role Message.content].
           destruct (helper_result _);
             cbn [questions_of answer_message error_message Message.role];
             rewrite Hqs; reflexivity.
Qed.

Lemma conversation2_at (env : Env) (questions : list jsstring) :
  forall h : Heap Page2.State,
  Page2.disabledChat (ui h) = false ->
  exists h',
    conversation2 env questions h = (Normal tt, h')
    /\ conversation_result env questions (Page2.company (ui h))
         (Page2.topK (ui h)) (sent h) (sent h')
         (Page2.messages (ui h)) (Page2.messages (ui h'))
    /\ Page2.company (ui h') = Page2.company (ui h)
    /\ Page2.topK (ui h') = Page2.topK (ui h)
    /\ Page2.file (ui h') = Page2.file (ui h)
    /\ Page2.reset (ui h') = Page2.reset (ui h)
    /\ Page2.ingestStatus (ui h') = Page2.ingestStatus (ui h)
    /\ Page2.sidebarOpen (ui h') = Page2.sidebarOpen (ui h)
    /\ Page2.loading (ui h') = false.
Proof.
  induction questions as [|q rest IH]; intros h Hd.
  - exists h. split; [reflexivity|]. split.
    + split; [simpl; rewrite app_nil_r; reflexivity|].
      exists []. simpl. rewrite app_nil_r. repeat split.
    + repeat split.
      unfold Page2.disabledChat in Hd. apply orb_false_iff in Hd as [Hl _].
      exact Hl.
  - cbn [conversation2]. unfold mbind, Task_bind.
    rewrite (ask2_at env q h Hd).
    destruct (trim q) as [|x q'] eqn:E.
    + rewrite handleSend2_blank_at
        by (destruct h as [[] ? ?]; exact E).
      destruct (IH (typing2 q h)) as (h' & Hrun & Hres & Hrest);
        [rewrite <- Hd; destruct h as [[] ? ?]; reflexivity|].
      exists h'. split; [exact Hrun|].
      destruct h as [[c f r st qy k ld ms sb] snt dr].
      unfold conversation_result in *. cbn [asked]. unfold not_blank.
      rewrite E. cbn [truthy]. split; [exact Hres|exact Hrest].
    + assert (Hne : trim (Page2.query (ui (typing2 q h))) <> [])
        by (destruct h as [[] ? ?]; change (trim q <> []); rewrite E;
            discriminate).
      rewrite (handleSend2_at env _ _ Hne). cbv beta iota zeta.
      match goal with
      | |- context [conversation2 env rest ?h1] =>
          destruct (IH h1) as (h' & Hrun & Hres & Hc & Hk & Hf & Hr & Hs & Hsb & Hl)
      end.
      { destruct h as [[c f r st qy k ld ms sb] snt dr].
        unfold Page2.disabledChat in *. cbn in *.
        apply orb_false_iff in Hd as [_ Hd]. exact Hd. }
      exists h'. split; [exact Hrun|].
      destruct h as [[c f r st qy k ld ms sb] snt dr].
      cbn [ui sent drawn typing2 snd Page2.onChange_query Page2.setQuery
           modify Page2.company Page2.topK Page2.messages Page2.query
           Page2.file Page2.reset Page2.ingestStatus Page2.loading
           Page2.sidebarOpen] in *.
      split; [|repeat split; assumption].
      destruct Hres as (Hsent & new & Hm & Hroles & Hqs).
      unfold conversation_result. cbn [asked]. unfold not_blank.
      rewrite E. cbn [truthy length map turns]. split.
      * rewrite Hsent, <- app_assoc. reflexivity.
      * eexists (_ :: _ :: new). split; [|split].
        -- rewrite Hm, <- !app_assoc. reflexivity.
        -- cbn [map]. rewrite Hroles. f_equal.
           destruct (helper_result _); reflexivity.
        -- cbn [questions_of user_message Message.role Message.content].
           destruct (helper_result _);
             cbn [questions_of answer_message error_message Message.role];
             rewrite Hqs; reflexivity.
Qed.

(** X4. On a page that is enabled (a company is set, nothing is loading),
    asking questions one after the other never throws and adds, for each
    question that is not blank and in order, one chat request for the
    trimmed question and two messages, the user's trimmed question and then
    an assistant message; earlier messages stay in place, blank questions
    add nothing, and the page ends with [loading] false.  Both revisions. *)
Theorem conversation_adds_one_request_and_two_messages_per_question
    (env : Env) (questions : list jsstring) :
  (forall s : Page1.State,
     Page1.disabledChat s = false ->
     fst (run (conversation1 env questions) s) = Normal tt
     /\ conversation_result env questions (Page1.company s) (Page1.topK s)
          [] (sent (snd (run (conversation1 env questions) s)))
          (Page1.messages s)
          (Page1.messages (ui (snd (run (conversation1 env questions) s))))
     /\ Page1.loading (ui (snd (run (conversation1 env questions) s))) = false)
  /\ (forall s : Page2.State,
        Page2.disabledChat s = false ->
        fst (run (conversation2 env questions) s) = Normal tt
        /\ conversation_result env questions (Page2.company s) (Page2.topK s)
             [] (sent (snd (run (conversation2 env questions) s)))
             (Page2.messages s)
             (Page2.messages (ui (snd (run (conversation2 env questions) s))))
        /\ Page2.loading (ui (snd (run (conversation2 env questions) s)))
           = false).
Proof.
  split; intros s Hd; unfold run.
  - destruct (conversation1_at env questions (start s) Hd)
      as (h' & Hrun & Hres & Hrest).
    rewrite Hrun. cbn [fst snd]. split; [reflexivity|]. split; [exact Hres|].
    apply Hrest.
  - destruct (conversation2_at env questions (start s) Hd)
      as (h' & Hrun & Hres & Hrest).
    rewrite Hrun. cbn [fst snd]. split; [reflexivity|]. split; [exact Hres|].
    apply Hrest.
Qed.

(** The premise is met: three questions, the second of them blank. *)
Lemma conversation_adds_one_request_and_two_messages_per_question_witness :
  map Message.role
    (Page1.messages
       (ui (snd (run (conversation1 (env_ok true)
                        [lit "How to log in?"; lit "  "; lit "And then?"])
                     filled1))))
  = [user; assistant; user; assistant]
  /\ length (sent (snd (run (conversation1 (env_ok true)
                              [lit "How to log in?"; lit "  "; lit "And then?"])
                           filled1))) = 2%nat.
Proof.
  destruct (conversation_adds_one_request_and_two_messages_per_question
              (env_ok true) [lit "How to log in?"; lit "  "; lit "And then?"])
    as [H _].
  destruct (H filled1 eq_refl) as (_ & (Hsent & new & Hm & Hroles & _) & _).
  split.
  - rewrite Hm. cbn [filled1 Page1.messages app]. exact Hroles.
  - rewrite Hsent. reflexivity.
Defined.


(** ** The events of the chat box *)

Lemma nothing_or_complete_handleSend1 (env : Env) (props : Page1.State) :
  trim (Page1.company props) <> [] ->
  nothing_or_complete env (Page1.company props) (Page1.query props)
    (Page1.topK props) (sent (snd (run (Page1.handleSend env props) props))).
Proof.
  intros Hc. destruct (trim (Page1.query props)) as [|x q] eqn:E.
  - left. rewrite handleSend1_blank by exact E. reflexivity.
  - right. split; [exact Hc|]. split; [rewrite E; discriminate|].
    rewrite handleSend1_run by (rewrite E; discriminate).
    cbn [snd sent]. rewrite E. reflexivity.
Qed.

Lemma nothing_or_complete_handleSend2 (env : Env) (props : Page2.State) :
  trim (Page2.company props) <> [] ->
  nothing_or_complete env (Page2.company props) (Page2.query props)
    (Page2.topK props) (sent (snd (run (Page2.handleSend env props) props))).
Proof.
  intros Hc. destruct (trim (Page2.query props)) as [|x q] eqn:E.
  - left. rewrite handleSend2_blank by exact E. reflexivity.
  - right. split; [exact Hc|]. split; [rewrite E; discriminate|].
    rewrite handleSend2_run by (rewrite E; discriminate).
    cbn [snd sent]. rewrite E. reflexivity.
Qed.

Lemma not_disabled1 (props : Page1.State) :
  Page1.disabledChat props = false ->
  Page1.loading props = false /\ trim (Page1.company props) <> [].
Proof.
  unfold Page1.disabledChat. intros H. apply orb_false_iff in H as [Hl Hc].
  split; [exact Hl|]. destruct (trim (Page1.company props)); [discriminate Hc|].
  discriminate.
Qed.

Lemma not_disabled2 (props : Page2.State) :
  Page2.disabledChat props = false ->
  Page2.loading props = false /\ trim (Page2.company props) <> [].
Proof.
  unfold Page2.disabledChat. intros H. apply orb_false_iff in H as [Hl Hc].
  split; [exact Hl|]. destruct (trim (Page2.company props)); [discriminate Hc|].
  discriminate.
Qed.

(** X3. Through the Send button and the Enter key the page sends either
    nothing or one chat request whose company and query are the trimmed
    inputs, neither of them empty: a blank company or a request in flight
    disables both controls, and any key other than Enter, or Enter with
    Shift, leaves the page as it is.  Both revisions. *)
Theorem chat_box_never_sends_a_blank_company_or_query
    (env : Env) (key : jsstring) (shiftKey : bool) :
  (forall props : Page1.State,
     let click := run (Page1.onClick_send env props) props in
     let press := run (Page1.onKeyDown_query env props key shiftKey) props in
     nothing_or_complete env (Page1.company props) (Page1.query props)
       (Page1.topK props) (sent (snd click))
     /\ nothing_or_complete env (Page1.company props) (Page1.query props)
          (Page1.topK props) (sent (snd press))
     /\ (Page1.loading props = true \/ whitespace_only (Page1.company props) = true ->
         click = (Normal tt, start props) /\ press = (Normal tt, start props))
     /\ (key <> lit "Enter" \/ shiftKey = true ->
         press = (Normal tt, start props)))
  /\ (forall props : Page2.State,
        let click := run (Page2.onClick_send env props) props in
        let press := run (Page2.onKeyDown_query env props key shiftKey) props in
        nothing_or_complete env (Page2.company props) (Page2.query props)
          (Page2.topK props) (sent (snd click))
        /\ nothing_or_complete env (Page2.company props) (Page2.query props)
             (Page2.topK props) (sent (snd press))
        /\ (Page2.loading props = true
            \/ whitespace_only (Page2.company props) = true ->
            click = (Normal tt, start props) /\ press = (Normal tt, start props))
        /\ (key <> lit "Enter" \/ shiftKey = true ->
            press = (Normal tt, start props))).
Proof.
  split; intros props; cbv zeta.
  - unfold Page1.onClick_send, Page1.onKeyDown_query.
    destruct (Page1.disabledChat props) eqn:Hd.
    + split; [left; reflexivity|]. split; [left; reflexivity|].
      split; [intros _; split; reflexivity | intros _; reflexivity].
    + destruct (not_disabled1 props Hd) as [Hl Hc].
      split; [apply nothing_or_complete_handleSend1, Hc|]. split; [|split].
      * destruct (bool_decide (key = lit "Enter") && negb shiftKey);
          [apply nothing_or_complete_handleSend1, Hc | left; reflexivity].
      * intros [H|H]; [rewrite Hl in H; discriminate|].
        apply trim_whitespace_only in H. contradiction.
      * intros [H|H].
        -- rewrite bool_decide_eq_false_2 by exact H. reflexivity.
        -- rewrite H, andb_false_r. reflexivity.
  - unfold Page2.onClick_send, Page2.onKeyDown_query.
    destruct (Page2.disabledChat props) eqn:Hd.
    + split; [left; reflexivity|]. split; [left; reflexivity|].
      split; [intros _; split; reflexivity | intros _; reflexivity].
    + destruct (not_disabled2 props Hd) as [Hl Hc].
      split; [apply nothing_or_complete_handleSend2, Hc|]. split; [|split].
      * destruct (bool_decide (key = lit "Enter") && negb shiftKey);
          [apply nothing_or_complete_handleSend2, Hc | left; reflexivity].
      * intros [H|H]; [rewrite Hl in H; discriminate|].
        apply trim_whitespace_only in H. contradiction.
      * intros [H|H].
        -- rewrite bool_decide_eq_false_2 by exact H. reflexivity.
        -- rewrite H, andb_false_r. reflexivity.
Qed.

(** The premises are met: a page that is loading, and the key "a". *)
Lemma chat_box_never_sends_a_blank_company_or_query_witness :
  run (Page2.onClick_send (env_ok true)
         (ui (snd (run (Page2.setLoading true) filled2))))
      (ui (snd (run (Page2.setLoading true) filled2)))
  = (Normal tt, start (ui (snd (run (Page2.setLoading true) filled2))))
  /\ run (Page1.onKeyDown_query (env_ok true) filled1 (lit "a") false) filled1
     = (Normal tt, start filled1).
Proof.
  destruct (chat_box_never_sends_a_blank_company_or_query
              (env_ok true) (lit "a") false) as [H1 H2].
  split.
  - destruct (H2 (ui (snd (run (Page2.setLoading true) filled2))))
      as (_ & _ & Hdisabled & _).
    exact (proj1 (Hdisabled (or_introl eq_refl))).
  - destruct (H1 filled1) as (_ & _ & _ & Hkey).
    apply Hkey. left. vm_compute. discriminate.
Defined.

(** ** The upload handler, whatever the back end does *)

(** X5. [handleUpload] never throws and never leaves the status at
    "Uploading & indexing…": it ends with a status line that is not empty,
    and it changes no other part of the state.  It sends no request when no
    file is chosen and exactly one, the ingest request for the trimmed
    company, when one is.  Both revisions. *)
Theorem handleUpload_always_settles (env : Env) :
  (forall props : Page1.State,
     exists status,
       run (Page1.handleUpload env props) props
       = (Normal tt,
          {| ui := {| Page1.company := Page1.company props;
                      Page1.file := Page1.file props;
                      Page1.reset := Page1.reset props;
                      Page1.ingestStatus := Some status;
                      Page1.query := Page1.query props;
                      Page1.topK := Page1.topK props;
                      Page1.loading := Page1.loading props;
                      Page1.messages := Page1.messages props |};
             sent := match Page1.file props with
                     | Some f => [expected_ingest_request env
                                    (trim (Page1.company props)) f
                                    (Page1.reset props)]
                     | None => []
                     end;
             drawn := 0 |})
       /\ status <> uploading_status /\ status <> [])
  /\ (forall props : Page2.State,
        exists status,
          run (Page2.handleUpload env props) props
          = (Normal tt,
             {| ui := {| Page2.company := Page2.company props;
                         Page2.file := Page2.file props;
                         Page2.reset := Page2.reset props;
                         Page2.ingestStatus := Some status;
                         Page2.query := Page2.query props;
                         Page2.topK := Page2.topK props;
                         Page2.loading := Page2.loading props;
                         Page2.messages := Page2.messages props;
                         Page2.sidebarOpen := Page2.sidebarOpen props |};
                sent := match Page2.file props with
                        | Some f => [expected_ingest_request env
                                       (trim (Page2.company props)) f
                                       (Page2.reset props)]
                        | None => []
                        end;
                drawn := 0 |})
          /\ status <> uploading_status /\ status <> []).
Proof.
  split; intros props.
  - destruct (Page1.file props) as [f|] eqn:Ef.
    + rewrite (handleUpload1_run env props f Ef). cbv zeta. rewrite Ef.
      eexists. split; [reflexivity|].
      destruct (helper_result _); split; discriminate.
    + destruct props; simpl in Ef; subst.
      eexists. split; [reflexivity|]. split; discriminate.
  - destruct (Page2.file props) as [f|] eqn:Ef.
    + rewrite (handleUpload2_run env props f Ef). cbv zeta. rewrite Ef.
      eexists. split; [reflexivity|].
      destruct (helper_result _); split; discriminate.
    + destruct props; simpl in Ef; subst.
      eexists. split; [reflexivity|]. split; discriminate.
Qed.

(** ** The status banner of the second revision *)

Lemma includes_after_mark (text : jsstring) :
  includes (cross_mark ++ lit " " ++ text) check_mark = includes text check_mark.
Proof. reflexivity. Qed.

(** X7. After an upload the banner of the second revision is green whenever
    the upload succeeded, whatever the company name holds.  After a failed
    upload it is red, unless the error text holds a check mark: then the
    failure is shown in green.  With no file chosen it is blue. *)
Theorem upload_banner_colour (env : Env) (props : Page2.State) :
  status_banner_after_upload env props
  = match Page2.file props with
    | None => Some (Page2.blue, lit "Please choose a CSV file first.")
    | Some f =>
        match helper_result
                (ingest_route env
                   (expected_ingest_request env (trim (Page2.company props)) f
                      (Page2.reset props))) with
        | Normal b =>
            Some (Page2.green, ingested_status (IngestResponse.records b)
                           (IngestResponse.company b))
        | Throw e =>
            Some (if includes (message e) check_mark then Page2.green else Page2.red,
                  cross_mark ++ lit " " ++ message e)
        end
    end.
Proof.
  unfold status_banner_after_upload.
  destruct (Page2.file props) as [f|] eqn:Ef.
  - rewrite (handleUpload2_run env props f Ef). cbv zeta.
    unfold Page2.status_banner. cbn [snd ui Page2.ingestStatus].
    destruct (helper_result _) as [b|e].
    + reflexivity.
    + rewrite includes_after_mark.
      destruct (includes (message e) check_mark); reflexivity.
  - destruct props; simpl in Ef; subst. reflexivity.
Qed.

(** A failure whose text holds a check mark is shown in green. *)
Example failed_upload_shown_green :
  status_banner_after_upload (env_failing (lit "not " ++ check_mark)) filled2
  = Some (Page2.green, cross_mark ++ lit " not " ++ check_mark).
Proof. reflexivity. Qed.

(** ** The address of the back end *)

Lemma API_BASE_not_empty (env : Env) : API_BASE env <> [].
Proof.
  unfold API_BASE. destruct (NEXT_PUBLIC_API_BASE env) as [[|c base]|];
    discriminate.
Qed.

(** X8. The address both revisions display is the one the helpers use: every
    request of [handleUpload] goes to that address followed by /v1/ingest and
    every request of [handleSend] to it followed by /v1/chat.  The address is
    never empty: a variable that is unset or empty gives
    http://127.0.0.1:8000, any other value is used as it is. *)
Theorem requests_go_to_the_displayed_address (env : Env) :
  Page1.apiBase env = API_BASE env
  /\ Page2.apiBase env = API_BASE env
  /\ API_BASE env <> []
  /\ (API_BASE env
      = match NEXT_PUBLIC_API_BASE env with
        | Some (c :: base) => c :: base
        | _ => lit "http://127.0.0.1:8000"
        end)
  /\ (forall props : Page1.State,
        Forall (fun r => url r = Page1.apiBase env ++ lit "/v1/ingest")
               (sent (snd (run (Page1.handleUpload env props) props)))
        /\ Forall (fun r => url r = Page1.apiBase env ++ lit "/v1/chat")
                  (sent (snd (run (Page1.handleSend env props) props))))
  /\ (forall props : Page2.State,
        Forall (fun r => url r = Page2.apiBase env ++ lit "/v1/ingest")
               (sent (snd (run (Page2.handleUpload env props) props)))
        /\ Forall (fun r => url r = Page2.apiBase env ++ lit "/v1/chat")
                  (sent (snd (run (Page2.handleSend env props) props)))).
Proof.
  split; [reflexivity|]. split; [reflexivity|].
  split; [apply API_BASE_not_empty|]. split.
  { unfold API_BASE. destruct (NEXT_PUBLIC_API_BASE env) as [[|c base]|];
      reflexivity. }
  split; intros props.
  - split.
    + destruct (Page1.file props) as [f|] eqn:Ef.
      * rewrite (handleUpload1_run env props f Ef).
        repeat constructor.
      * destruct props; simpl in Ef; subst. constructor.
    + destruct (trim (Page1.query props)) eqn:E.
      * rewrite handleSend1_blank by exact E. constructor.
      * rewrite handleSend1_run by (rewrite E; discriminate).
        repeat constructor.
  - split.
    + destruct (Page2.file props) as [f|] eqn:Ef.
      * rewrite (handleUpload2_run env props f Ef).
        repeat constructor.
      * destruct props; simpl in Ef; subst. constructor.
    + destruct (trim (Page2.query props)) eqn:E.
      * rewrite handleSend2_blank by exact E. constructor.
      * rewrite handleSend2_run by (rewrite E; discriminate).
        repeat constructor.
Qed.

(** ** What a bubble shows *)

Lemma citation_spans_join (cs : list Citation.t) :
  forall (n off : nat), n = (off + length cs)%nat ->
  concat (imap (fun i => Page1.citation_span n (off + i)) cs)
  = Page1.join (lit " | ") (map citation_text cs).
Proof.
  induction cs as [|c cs IH]; intros n off Hn; [reflexivity|].
  cbn [imap concat map]. simpl length in Hn.
  rewrite (imap_ext _ (fun i => Page1.citation_span n (S off + i)))
    by (intros i x _; simpl; f_equal; lia).
  rewrite (IH n (S off)) by lia.
  unfold Page1.citation_span at 1. fold (citation_text c).
  replace (off + 0)%nat with off by lia.
  destruct cs as [|c' cs].
  - replace (Z.of_nat off <? Z.of_nat n - 1) with false
      by (symmetry; apply Z.ltb_ge; simpl in Hn; lia).
    simpl. unfold citation_text.
    rewrite <- !app_assoc, !app_nil_r. reflexivity.
  - replace (Z.of_nat off <? Z.of_nat n - 1) with true
      by (symmetry; apply Z.ltb_lt; simpl in Hn; lia).
    cbn [map Page1.join]. unfold citation_text.
    rewrite <- !app_assoc. reflexivity.
Qed.

(** X9. In the first revision the citations line of a bubble is rendered
    exactly when the message has at least one citation, and its spans then
    read as the citations, each written (data_type · title), joined by
    " | ": a separator between any two, none after the last. *)
Theorem citations_line_is_joined (msg : Message.t) :
  Page1.citations_line msg
  = match Message.citations msg with
    | Some (c :: cs) =>
        Some (Page1.join (lit " | ") (map citation_text (c :: cs)))
    | _ => None
    end.
Proof.
  unfold Page1.citations_line.
  destruct (Message.citations msg) as [[|c cs]|]; [reflexivity| |reflexivity].
  change (0 <? length (c :: cs))%nat with true. cbv iota. f_equal.
  apply (citation_spans_join (c :: cs) (length (c :: cs)) 0). reflexivity.
Qed.

(** X10. In the second revision the action row of what [handleSend] appends
    is: nothing for the user's message and for an error message; the Sources
    and Results buttons with their counts for an answer that has a citation
    or a hit; and, for an answer with no citation and no hit, the text "0",
    because [0 || 0] is the number 0 and React renders a number. *)
Theorem answer_without_sources_shows_a_zero (env : Env) (props : Page2.State) :
  not_blank (Page2.query props) = true ->
  exists question reply,
    Page2.messages (ui (snd (run (Page2.handleSend env props) props)))
    = (Page2.messages props ++ [question]) ++ [reply]
    /\ Page2.action_area question = Page2.rendered_nothing
    /\ Page2.action_area reply
       = match helper_result
                 (chat_route env
                    (expected_chat_request env (trim (Page2.company props))
                       (trim (Page2.query props)) (Page2.topK props))) with
         | Throw _ => Page2.rendered_nothing
         | Normal res =>
             match ChatResponse.citations res, ChatResponse.hits res with
             | [], [] => Page2.rendered_text (lit "0")
             | cs, hs =>
                 Page2.rendered_actions
                   (if (0 <? length cs)%nat then Some (length cs) else None)
                   (if (0 <? length hs)%nat then Some (length hs) else None)
             end
         end.
Proof.
  intros Hq. unfold not_blank in Hq.
  assert (Hne : trim (Page2.query props) <> [])
    by (destruct (trim (Page2.query props)); [discriminate Hq | discriminate]).
  rewrite (handleSend2_run env props Hne). cbv zeta.
  cbn [snd ui Page2.messages].
  eexists _, _. split; [reflexivity|]. split; [reflexivity|].
  destruct (helper_result _) as [res|e]; [|reflexivity].
  unfold Page2.action_area, answer_message.
  cbn [Message.citations Message.hits Page2.optional_length fmap option_fmap
       option_map].
  destruct (ChatResponse.citations res) as [|c cs],
           (ChatResponse.hits res) as [|x hs]; reflexivity.
Qed.

(** The premise is met: the back end answers without citations and hits,
    and the bubble shows the text "0". *)
Lemma answer_without_sources_shows_a_zero_witness :
  exists question reply,
    Page2.messages
      (ui (snd (run (Page2.handleSend (env_no_sources) filled2) filled2)))
    = [question; reply]
    /\ Page2.action_area reply = Page2.rendered_text (lit "0").
Proof.
  destruct (answer_without_sources_shows_a_zero env_no_sources filled2 eq_refl)
    as (question & reply & Hm & _ & Hr).
  exists question, reply. split; [exact Hm | exact Hr].
Defined.

(** ** What [handleSend] leaves alone, and how it reports a failure *)

(** X6. [handleSend] never changes the company, the file, the reset flag,
    the upload status or [topK] (nor, in the second revision, the sidebar),
    and it never drops or reorders a message: the earlier messages are a
    prefix of the later ones, which are two more for a question that is not
    blank and the same otherwise.  Each new message takes one UUID. *)
Theorem handleSend_keeps_the_rest_of_the_state (env : Env) :
  (forall props : Page1.State,
     let out := snd (run (Page1.handleSend env props) props) in
     Page1.company (ui out) = Page1.company props
     /\ Page1.file (ui out) = Page1.file props
     /\ Page1.reset (ui out) = Page1.reset props
     /\ Page1.ingestStatus (ui out) = Page1.ingestStatus props
     /\ Page1.topK (ui out) = Page1.topK props
     /\ Page1.messages props `prefix_of` Page1.messages (ui out)
     /\ length (Page1.messages (ui out))
        = (length (Page1.messages props)
           + if not_blank (Page1.query props) then 2 else 0)%nat
     /\ drawn out = (if not_blank (Page1.query props) then 2 else 0)%nat)
  /\ (forall props : Page2.State,
        let out := snd (run (Page2.handleSend env props) props) in
        Page2.company (ui out) = Page2.company props
        /\ Page2.file (ui out) = Page2.file props
        /\ Page2.reset (ui out) = Page2.reset props
        /\ Page2.ingestStatus (ui out) = Page2.ingestStatus props
        /\ Page2.topK (ui out) = Page2.topK props
        /\ Page2.sidebarOpen (ui out) = Page2.sidebarOpen props
        /\ Page2.messages props `prefix_of` Page2.messages (ui out)
        /\ length (Page2.messages (ui out))
           = (length (Page2.messages props)
              + if not_blank (Page2.query props) then 2 else 0)%nat
        /\ drawn out = (if not_blank (Page2.query props) then 2 else 0)%nat).
Proof.
  split; intros props; cbv zeta; unfold not_blank.
  - destruct (trim (Page1.query props)) as [|x q] eqn:E.
    + rewrite handleSend1_blank by exact E. cbn [snd ui start truthy drawn].
      repeat split; try reflexivity. lia.
    + rewrite handleSend1_run by (rewrite E; discriminate).
      cbn [snd ui truthy drawn Page1.company Page1.file Page1.reset
           Page1.ingestStatus Page1.topK Page1.messages].
      repeat split; try reflexivity.
      * rewrite <- app_assoc. apply prefix_app_r. reflexivity.
      * rewrite !length_app. simpl. lia.
  - destruct (trim (Page2.query props)) as [|x q] eqn:E.
    + rewrite handleSend2_blank by exact E. cbn [snd ui start truthy drawn].
      repeat split; try reflexivity. lia.
    + rewrite handleSend2_run by (rewrite E; discriminate).
      cbn [snd ui truthy drawn Page2.company Page2.file Page2.reset
           Page2.ingestStatus Page2.topK Page2.messages Page2.sidebarOpen].
      repeat split; try reflexivity.
      * rewrite <- app_assoc. apply prefix_app_r. reflexivity.
      * rewrite !length_app. simpl. lia.
Qed.

(** The three ways a helper fails. *)
Lemma helper_result_throws {T} (answer : completion (Response T)) (e : JsError) :
  helper_result answer = Throw e <->
  answer = Throw e
  \/ (exists res, answer = Normal res /\ ok res = false
                  /\ e = new_Error (text res))
  \/ (exists res, answer = Normal res /\ ok res = true
                  /\ json_body res = Throw e).
Proof.
  unfold helper_result. split.
  - destruct answer as [res|e']; [|intros [= ->]; left; reflexivity].
    destruct (ok res) eqn:Hok; intros H; right.
    + right. exists res. repeat split; assumption.
    + left. exists res. injection H as <-. repeat split. exact Hok.
  - intros [->|[(res & -> & Hok & ->)|(res & -> & Hok & Hb)]];
      [reflexivity|rewrite Hok; reflexivity|rewrite Hok; exact Hb].
Qed.

(** X11. Whatever makes the chat helper fail (a rejected fetch, a response
    that is not ok, or an ok response whose body does not parse), a question
    that is not blank ends with an assistant message that begins with the
    error mark and "Error:" followed by the error's message, and with
    [loading] false; when the helper succeeds the message is the answer
    with its citations and hits.  Both revisions. *)
Theorem handleSend_reports_every_failure (env : Env) :
  (forall props : Page1.State,
     not_blank (Page1.query props) = true ->
     exists reply,
       Page1.messages (ui (snd (run (Page1.handleSend env props) props)))
       = (Page1.messages props
          ++ [user_message (uuid env 0) (trim (Page1.query props))])
         ++ [reply]
       /\ Page1.loading (ui (snd (run (Page1.handleSend env props) props)))
          = false
       /\ match helper_result
                  (chat_route env
                     (expected_chat_request env (trim (Page1.company props))
                        (trim (Page1.query props)) (Page1.topK props))) with
          | Normal res => reply = answer_message (uuid env 1) res
          | Throw e => reports_error reply (message e)
          end)
  /\ (forall props : Page2.State,
        not_blank (Page2.query props) = true ->
        exists reply,
          Page2.messages (ui (snd (run (Page2.handleSend env props) props)))
          = (Page2.messages props
             ++ [user_message (uuid env 0) (trim (Page2.query props))])
            ++ [reply]
          /\ Page2.loading (ui (snd (run (Page2.handleSend env props) props)))
             = false
          /\ match helper_result
                     (chat_route env
                        (expected_chat_request env (trim (Page2.company props))
                           (trim (Page2.query props)) (Page2.topK props))) with
             | Normal res => reply = answer_message (uuid env 1) res
             | Throw e => reports_error reply (message e)
             end)
  /\ (forall (T : Type) (answer : completion (Response T)) (e : JsError),
        helper_result answer = Throw e <->
        answer = Throw e
        \/ (exists res, answer = Normal res /\ ok res = false
                        /\ e = new_Error (text res))
        \/ (exists res, answer = Normal res /\ ok res = true
                        /\ json_body res = Throw e)).
Proof.
  split; [|split; [|intros T; apply helper_result_throws]].
  - intros props Hq. unfold not_blank in Hq.
    assert (Hne : trim (Page1.query props) <> [])
      by (destruct (trim (Page1.query props));
          [discriminate Hq | discriminate]).
    rewrite (handleSend1_run env props Hne). cbv zeta.
    cbn [snd ui Page1.messages Page1.loading].
    eexists. split; [reflexivity|]. split; [reflexivity|].
    destruct (helper_result _); [reflexivity | apply error_message_reports].
  - intros props Hq. unfold not_blank in Hq.
    assert (Hne : trim (Page2.query props) <> [])
      by (destruct (trim (Page2.query props));
          [discriminate Hq | discriminate]).
    rewrite (handleSend2_run env props Hne). cbv zeta.
    cbn [snd ui Page2.messages Page2.loading].
    eexists. split; [reflexivity|]. split; [reflexivity|].
    destruct (helper_result _); [reflexivity | apply error_message_reports_same].
Qed.

(** The premise is met by a fetch that is rejected ("Failed to fetch"). *)
Lemma handleSend_reports_every_failure_witness :
  exists reply,
    Page1.messages
      (ui (snd (run (Page1.handleSend env_offline filled1) filled1)))
    = [user_message (lit "uuid-0") (lit "How to log in?"); reply]
    /\ Message.content reply = cross_mark ++ lit " Error: Failed to fetch".
Proof.
  destruct (handleSend_reports_every_failure env_offline) as (H & _ & _).
  destruct (H filled1 eq_refl) as (reply & Hm & _ & Hr).
  exists reply. split; [exact Hm|].
  cbn in Hr. destruct Hr as (_ & _ & Hc). apply Hc. discriminate.
Defined.
